(** * Vox2VoxModel: a shallow embedding of gancer/models/vox2vox_model.py

    The model class drives a generator and a discriminator through the
    PyTorch (0.3) autograd library.  The embedding keeps what the class itself
    decides: which attributes of [self] exist, which library calls are made,
    in which order and on which data, how the autograd graph of every loss is
    connected to the two networks, and the arithmetic written in the class
    (the Wasserstein criterion, the averaged discriminator loss, the weighted
    generator loss, the clamp of the discriminator parameters).

    What the numeric library computes (a network's forward pass, a gradient,
    an Adam update, a library loss) is a field of the class [Backend]: every
    theorem holds for all backends.  Library calls are taken to return; the
    exceptions modelled are the ones the class decides: a missing attribute
    of [self], the [NotImplementedError] of [initialize], and autograd's
    refusal to back-propagate from a variable that requires no gradient.
    Loss values are rationals.  A parameter value is a rational or NaN, the
    value no comparison holds for and arithmetic propagates; rounding and
    infinities are outside the model. *)

From Stdlib Require Import String List ZArith QArith Qabs Bool Lia.
Import ListNotations.

Local Open Scope Z_scope.
Local Open Scope Q_scope.

Set Implicit Arguments.

(** ** Configuration ([opt]) *)

Module Opt.
Record t : Type := mk {
  isTrain : bool;
  no_img : bool;
  input_nc : Z;
  output_nc : Z;
  ngf : Z;
  ndf : Z;
  which_model_netG : string;
  which_model_netD : string;
  n_layers_D : Z;
  norm : string;
  no_dropout : bool;
  init_type : string;
  gpu_ids : list Z;
  no_lsgan : bool;
  continue_train : bool;
  which_epoch : string;
  pool_size : Z;
  wasserstein : bool;
  recon_loss : string;
  lr : Q;
  beta1 : Q;
  lambda_A : Q;
  which_direction : string
}.
End Opt.

(** ** Networks, parameters and the autograd graph *)

(** The two network attributes of the class. *)
Inductive NetId : Type := NetG | NetD.

Definition NetId_eqb (a b : NetId) : bool :=
  match a, b with
  | NetG, NetG | NetD, NetD => true
  | _, _ => false
  end.

(** A parameter value: a number, or the NaN of floating-point arithmetic. *)
Inductive Value : Type :=
| Num (q : Q)
| NaN.

(** [x + y]: NaN propagates. *)
Definition val_add (x y : Value) : Value :=
  match x, y with
  | Num a, Num b => Num (a + b)
  | _, _ => NaN
  end.

(** [x < y]: false as soon as one side is NaN. *)
Definition val_lt (x y : Value) : bool :=
  match x, y with
  | Num a, Num b => negb (Qle_bool b a)
  | _, _ => false
  end.

(** [lo <= x <= hi]: a NaN is in no interval. *)
Definition in_range (lo hi : Q) (x : Value) : Prop :=
  match x with
  | Num q => lo <= q /\ q <= hi
  | NaN => False
  end.

(** A parameter tensor is the list of its values; a network owns a list of
    parameter tensors. *)
Definition Param : Type := list Value.
Definition Params : Type := list Param.

(** A parameter tensor of numbers. *)
Definition nums (l : list Q) : Param := map Num l.

(** The tape autograd records.  A node keeps the tensors the backward pass
    needs (its saved buffers); [GLeaf] is a variable without history. *)
Inductive Graph (tensor arch : Type) : Type :=
| GLeaf
| GNet (n : NetId) (a : arch) (p : Params) (saved : tensor) (g : Graph tensor arch)
| GCat (g1 g2 : Graph tensor arch)
| GMean (saved : tensor) (g : Graph tensor arch)
| GGANLoss (use_lsgan : bool) (saved : tensor) (target_is_real : bool)
           (g : Graph tensor arch)
| GL1Loss (saved1 saved2 : tensor) (g1 g2 : Graph tensor arch)
| GMSELoss (saved1 saved2 : tensor) (g1 g2 : Graph tensor arch)
| GMul (k : Q) (g : Graph tensor arch)
| GAdd (g1 g2 : Graph tensor arch).

Arguments GLeaf {tensor arch}.

(** [reaches n g]: the parameters of network [n] are among the leaves the
    backward pass from [g] arrives at. *)
Fixpoint reaches {tensor arch : Type} (n : NetId) (g : Graph tensor arch) : bool :=
  match g with
  | GLeaf => false
  | GNet n' _ _ _ g' => NetId_eqb n n' || reaches n g'
  | GCat g1 g2 | GAdd g1 g2 => reaches n g1 || reaches n g2
  | GL1Loss _ _ g1 g2 | GMSELoss _ _ g1 g2 => reaches n g1 || reaches n g2
  | GMean _ g' | GGANLoss _ _ _ g' | GMul _ g' => reaches n g'
  end.

Definition requires_grad {tensor arch : Type} (g : Graph tensor arch) : bool :=
  reaches NetG g || reaches NetD g.

(** The saved buffers of a graph, in recording order. *)
Fixpoint buffers {tensor arch : Type} (g : Graph tensor arch) : list tensor :=
  match g with
  | GLeaf => []
  | GNet _ _ _ s g' => s :: buffers g'
  | GCat g1 g2 | GAdd g1 g2 => buffers g1 ++ buffers g2
  | GL1Loss s1 s2 g1 g2 | GMSELoss s1 s2 g1 g2 =>
      s1 :: s2 :: buffers g1 ++ buffers g2
  | GMean s g' | GGANLoss _ s _ g' => s :: buffers g'
  | GMul _ g' => buffers g'
  end.

(** ** The collaborators of the class *)

Inductive TensorType : Type := FloatTensor | CudaFloatTensor.

Class Backend : Type := {
  (** torch tensors, network modules, Adam's running moments and the
      learning-rate schedulers of [networks.get_scheduler] *)
  tensor : Type;
  arch : Type;
  adam_state : Type;
  scheduler : Type;
  (** [networks.define_G], [networks.define_D]: the module and its initial
      parameters *)
  define_G : Z -> Z -> Z -> string -> string -> bool -> string -> list Z ->
             arch * Params;
  define_D : Z -> Z -> string -> Z -> string -> bool -> string -> list Z ->
             arch * Params;
  (** the forward pass of a module *)
  net_forward : arch -> Params -> tensor -> tensor;
  (** [torch.cat((a, b), 1)], [x.mean()], [tensor.cuda(device)] *)
  cat1 : tensor -> tensor -> tensor;
  mean : tensor -> Q;
  cuda : Z -> tensor -> tensor;
  (** [torch.nn.L1Loss()], [torch.nn.MSELoss()], [networks.GANLoss] *)
  L1Loss : tensor -> tensor -> Q;
  MSELoss : tensor -> tensor -> Q;
  GANLoss : bool -> TensorType -> tensor -> bool -> Q;
  (** the gradient of the root of a graph in the parameters of a network *)
  autograd : NetId -> Graph tensor arch -> Params;
  (** [torch.optim.Adam]: lr, betas, moments, parameters, gradients *)
  adam_init : adam_state;
  adam_update : Q -> Q * Q -> adam_state -> Params -> Params ->
                Params * adam_state;
  (** the optimizer is named by the network whose parameters it holds *)
  get_scheduler : NetId -> Opt.t -> scheduler;
  (** the random draws of the image pool: keep the input or swap, and the
      slot to swap with *)
  rand_keep : nat -> bool;
  rand_slot : nat -> nat
}.

(** ** The attributes of [self] *)

Inductive Attr : Type :=
| opt | gpu_ids | isTrain | Tensor | no_img
| netG | netD
| fake_AB_pool | criterionGAN | criterionL1
| schedulers | optimizers | optimizer_G | optimizer_D
| input_A | input_B | image_paths
| real_A | fake_B | real_B
| loss_D_fake | loss_D_real | loss_D
| loss_G_GAN | loss_G_L1 | loss_G.

Definition Attr_eq_dec (a b : Attr) : {a = b} + {a <> b}.
Proof. decide equality. Defined.

(** [lambda x, y: x.mean() * (-2 * int(y) + 1)] or a [networks.GANLoss]
    object. *)
Inductive GanCriterion : Type :=
| WassersteinLoss
| GANLossObj (use_lsgan : bool) (tensor_type : TensorType).

Inductive ReconCriterion : Type := L1LossObj | MSELossObj.

Inductive Exn : Type :=
| AttributeError (a : Attr)
| NotImplementedError (msg : string)
| RuntimeError (msg : string).

Inductive Result (A : Type) : Type :=
| Ok (a : A)
| Raise (e : Exn).

Arguments Raise {A} e.

Section Model.

Context {B : Backend}.

Abbreviation graph := (Graph tensor arch).

(** An autograd variable: its value, its history, and the [volatile] flag
    that switches recording off. *)
Record Var (A : Type) : Type := mkVar {
  data : A;
  grad_fn : graph;
  volatile : bool
}.

(** A network module: its parameters and their accumulated gradients
    ([None] until a backward pass reaches them). *)
Record Network : Type := mkNetwork {
  net_arch : arch;
  net_params : Params;
  net_grad : option Params
}.

(** [torch.optim.Adam(net.parameters(), lr, betas)]: it holds the parameter
    objects of the network [target], not copies. *)
Record Optimizer : Type := mkOptimizer {
  target : NetId;
  opt_lr : Q;
  opt_betas : Q * Q;
  opt_state : adam_state
}.

Record ImagePool : Type := mkImagePool {
  pool_size : Z;
  images : list tensor
}.

Definition AttrTy (a : Attr) : Type :=
  match a with
  | opt => Opt.t
  | gpu_ids => list Z
  | isTrain | no_img => bool
  | Tensor => TensorType
  | netG | netD => Network
  | fake_AB_pool => ImagePool
  | criterionGAN => GanCriterion
  | criterionL1 => ReconCriterion
  | schedulers => list scheduler
  | optimizers => list NetId
  | optimizer_G | optimizer_D => Optimizer
  | input_A | input_B => tensor
  | image_paths => list string
  | real_A | fake_B | real_B => Var tensor
  | loss_D_fake | loss_D_real | loss_D
  | loss_G_GAN | loss_G_L1 | loss_G => Var Q
  end.

(** The instance dictionary: an attribute is absent until assigned. *)
Definition Self : Type := forall a : Attr, option (AttrTy a).

Definition new_self : Self := fun _ => None.

Definition self_set (a : Attr) (v : AttrTy a) (s : Self) : Self :=
  fun a' =>
    match Attr_eq_dec a a' with
    | left e => Some (eq_rect a AttrTy v a' e)
    | right _ => s a'
    end.

(** The calls the class makes on its collaborators, as they happen.
    [EvClamp] stands for the loop of [clip_D] as a whole, whatever the number
    of parameter tensors it clamps. *)
Inductive Event : Type :=
| EvDefine (n : NetId)
| EvLoad (n : NetId) (network_label epoch_label : string)
| EvSave (n : NetId) (network_label epoch_label : string)
| EvPrint (line : string)
| EvPrintNetwork (n : NetId)
| EvImagePool (size : Z)
| EvAdam (n : NetId)
| EvScheduler (n : NetId)
| EvForward (n : NetId) (x : tensor)
| EvQuery (x : tensor)
| EvZeroGrad (n : NetId)
| EvBackward (g : graph)
| EvStep (n : NetId)
| EvClamp (n : NetId) (lo hi : Q).

(** The object, the calls made so far, the checkpoint files (by network
    label and epoch label) and the position in the random stream. *)
Record World : Type := mkWorld {
  self : Self;
  trace : list Event;
  disk : string -> string -> Params;
  tick : nat
}.

Definition M (A : Type) : Type := World -> Result A * World.

Definition ret {A : Type} (a : A) : M A := fun w => (Ok a, w).

Definition bind {A C : Type} (c : M A) (k : A -> M C) : M C :=
  fun w =>
    match c w with
    | (Ok a, w') => k a w'
    | (Raise e, w') => (Raise e, w')
    end.

Definition raise {A : Type} (e : Exn) : M A := fun w => (Raise e, w).

End Model.

Notation "x <- c ;; k" := (bind c (fun x => k))
  (at level 61, c at next level, right associativity).
Notation "c ;; k" := (bind c (fun _ => k))
  (at level 61, right associativity).

Section Operations.

Context {B : Backend}.

Abbreviation graph := (Graph tensor arch).

Definition getattr (a : Attr) : M (AttrTy a) :=
  fun w =>
    match self w a with
    | Some v => (Ok v, w)
    | None => (Raise (AttributeError a), w)
    end.

Definition setattr (a : Attr) (v : AttrTy a) : M unit :=
  fun w => (Ok tt, mkWorld (self_set a v (self w)) (trace w) (disk w) (tick w)).

Definition log (e : Event) : M unit :=
  fun w => (Ok tt, mkWorld (self w) (trace w ++ [e]) (disk w) (tick w)).

Definition read_disk (network_label epoch_label : string) : M Params :=
  fun w => (Ok (disk w network_label epoch_label), w).

Definition write_disk (network_label epoch_label : string) (p : Params) : M unit :=
  fun w =>
    (Ok tt,
     mkWorld (self w) (trace w)
       (fun n e =>
          if (String.eqb n network_label && String.eqb e epoch_label)%bool
          then p else disk w n e)
       (tick w)).

Definition next_tick : M nat :=
  fun w => (Ok (tick w), mkWorld (self w) (trace w) (disk w) (S (tick w))).

(** The network object a name stands for, and its in-place change. *)
Definition get_net (n : NetId) (w : World) : option Network :=
  match n with
  | NetG => self w netG
  | NetD => self w netD
  end.

Definition set_net (n : NetId) (net : Network) : M unit :=
  match n with
  | NetG => setattr netG net
  | NetD => setattr netD net
  end.

Definition modify_net (n : NetId) (f : Network -> Network) : M unit :=
  fun w =>
    match get_net n w with
    | Some net => set_net n (f net) w
    | None => (Ok tt, w)
    end.

(** Python's [for x in xs: body]. *)
Fixpoint for_each {A : Type} (xs : list A) (body : A -> M unit) : M unit :=
  match xs with
  | [] => ret tt
  | x :: xs' => body x ;; for_each xs' body
  end.

(** ** Autograd variables *)

(** [Variable(t)] and [Variable(t, volatile=True)]. *)
Definition new_Variable (t : tensor) (vol : bool) : Var tensor :=
  mkVar t GLeaf vol.

(** [x.detach()]: the same value, cut from its history. *)
Definition detach {A : Type} (x : Var A) : Var A :=
  mkVar (data x) GLeaf (volatile x).

(** A result keeps a node only when recording is on (no volatile input) and
    some input requires a gradient. *)
Definition record (vol : bool) (g : graph) : graph :=
  if (vol || negb (requires_grad g))%bool then GLeaf else g.

(** [net(x)]: a module's parameters always require a gradient. *)
Definition call (n : NetId) (net : Network) (x : Var tensor) : M (Var tensor) :=
  log (EvForward n (data x)) ;;
  ret (mkVar (net_forward (net_arch net) (net_params net) (data x))
         (record (volatile x)
            (GNet n (net_arch net) (net_params net) (data x) (grad_fn x)))
         (volatile x)).

(** [torch.cat((a, b), 1)] *)
Definition torch_cat (a b : Var tensor) : Var tensor :=
  let vol := (volatile a || volatile b)%bool in
  mkVar (cat1 (data a) (data b)) (record vol (GCat (grad_fn a) (grad_fn b))) vol.

(** [x.mean()], [x * k], [x + y] *)
Definition var_mean (x : Var tensor) : Var Q :=
  mkVar (mean (data x)) (record (volatile x) (GMean (data x) (grad_fn x)))
    (volatile x).

Definition var_mul (x : Var Q) (k : Q) : Var Q :=
  mkVar (data x * k) (record (volatile x) (GMul k (grad_fn x))) (volatile x).

Definition var_add (x y : Var Q) : Var Q :=
  let vol := (volatile x || volatile y)%bool in
  mkVar (data x + data y) (record vol (GAdd (grad_fn x) (grad_fn y))) vol.

(** [self.criterionGAN(x, y)] *)
Definition call_criterionGAN (c : GanCriterion) (x : Var tensor) (y : bool)
  : Var Q :=
  match c with
  | WassersteinLoss => var_mul (var_mean x) (inject_Z (-2 * Z.b2z y + 1))
  | GANLossObj use_lsgan ty =>
      mkVar (GANLoss use_lsgan ty (data x) y)
        (record (volatile x) (GGANLoss use_lsgan (data x) y (grad_fn x)))
        (volatile x)
  end.

(** [self.criterionL1(x, y)] *)
Definition call_criterionL1 (c : ReconCriterion) (x y : Var tensor) : Var Q :=
  let vol := (volatile x || volatile y)%bool in
  match c with
  | L1LossObj =>
      mkVar (L1Loss (data x) (data y))
        (record vol (GL1Loss (data x) (data y) (grad_fn x) (grad_fn y))) vol
  | MSELossObj =>
      mkVar (MSELoss (data x) (data y))
        (record vol (GMSELoss (data x) (data y) (grad_fn x) (grad_fn y))) vol
  end.

(** The discriminator's score of a tensor that has no history. *)
Definition D_score (d : Network) (x : tensor) : Var tensor :=
  mkVar (net_forward (net_arch d) (net_params d) x)
    (GNet NetD (net_arch d) (net_params d) x GLeaf) false.

Definition params_add (a b : Params) : Params :=
  map (fun xy => map (fun uv => val_add (fst uv) (snd uv))
                 (combine (fst xy) (snd xy)))
    (combine a b).

Definition add_grad (old : option Params) (delta : Params) : Params :=
  match old with
  | None => delta
  | Some g => params_add g delta
  end.

(** The backward pass adds a gradient to the parameters of every network
    the graph reaches, and to no others. *)
Definition accumulate (n : NetId) (g : graph) : M unit :=
  if reaches n g
  then modify_net n (fun net =>
         mkNetwork (net_arch net) (net_params net)
           (Some (add_grad (net_grad net) (autograd n g))))
  else ret tt.

(** [loss.backward()] *)
Definition backward (l : Var Q) : M unit :=
  if (volatile l || negb (requires_grad (grad_fn l)))%bool
  then raise (RuntimeError "element 0 of variables does not require grad")
  else
    log (EvBackward (grad_fn l)) ;;
    accumulate NetG (grad_fn l) ;;
    accumulate NetD (grad_fn l).

(** ** Optimizers *)

(** [torch.optim.Adam(net.parameters(), lr=lr, betas=betas)] *)
Definition Adam (n : NetId) (lr : Q) (betas : Q * Q) : M Optimizer :=
  log (EvAdam n) ;;
  ret (mkOptimizer n lr betas adam_init).

Definition zeros (g : Params) : Params := map (map (fun _ => Num 0)) g.

(** [optimizer.zero_grad()]: gradients that exist are set to zero. *)
Definition zero_grad (o : Optimizer) : M unit :=
  log (EvZeroGrad (target o)) ;;
  modify_net (target o) (fun net =>
    mkNetwork (net_arch net) (net_params net) (option_map zeros (net_grad net))).

(** [optimizer.step()]: parameters without a gradient are skipped; the
    optimizer object comes back with its moments updated. *)
Definition step (o : Optimizer) : M Optimizer :=
  log (EvStep (target o)) ;;
  fun w =>
    match get_net (target o) w with
    | Some net =>
        match net_grad net with
        | Some g =>
            let r := adam_update (opt_lr o) (opt_betas o) (opt_state o)
                       (net_params net) g in
            (set_net (target o)
               (mkNetwork (net_arch net) (fst r) (net_grad net)) ;;
             ret (mkOptimizer (target o) (opt_lr o) (opt_betas o) (snd r))) w
        | None => (Ok o, w)
        end
    | None => (Ok o, w)
    end.

(** ** The image pool and the checkpoints of the base class *)

Definition list_set {A : Type} (i : nat) (x : A) (l : list A) : list A :=
  firstn i l ++ x :: skipn (S i) l.

(** [ImagePool(pool_size)] *)
Definition new_ImagePool (size : Z) : M ImagePool :=
  log (EvImagePool size) ;;
  ret (mkImagePool size []).

(** Modelled from the spec: util/image_pool.py is not under src/.  Below
    capacity the image is stored and returned; at capacity a draw either
    returns the image or swaps it with a stored slot, returning the slot's
    previous content; capacity 0 stores nothing.  The pool is the object held
    by [self.fake_AB_pool], and what it returns carries no history. *)
Definition query (pool : ImagePool) (image : tensor) : M (Var tensor) :=
  log (EvQuery image) ;;
  if (pool_size pool =? 0)%Z then ret (new_Variable image false)
  else if (Z.of_nat (List.length (images pool)) <? pool_size pool)%Z then
    setattr fake_AB_pool
      (mkImagePool (pool_size pool) (images pool ++ [image])) ;;
    ret (new_Variable image false)
  else
    t <- next_tick ;;
    if rand_keep t then ret (new_Variable image false)
    else
      let i := (rand_slot t mod List.length (images pool))%nat in
      match nth_error (images pool) i with
      | Some old =>
          setattr fake_AB_pool
            (mkImagePool (pool_size pool) (list_set i image (images pool))) ;;
          ret (new_Variable old false)
      | None => ret (new_Variable image false)
      end.

(** Modelled from the spec: models/base_model.py is not under src/.  The base
    class keeps the configuration the model reads back as [self.opt],
    [self.gpu_ids], [self.isTrain] and [self.Tensor]. *)
Definition BaseModel_initialize (o : Opt.t) : M unit :=
  setattr opt o ;;
  setattr gpu_ids (Opt.gpu_ids o) ;;
  setattr isTrain (Opt.isTrain o) ;;
  setattr Tensor
    (match Opt.gpu_ids o with [] => FloatTensor | _ :: _ => CudaFloatTensor end).

(** Modelled from the spec: [save_network] of models/base_model.py persists
    the parameters of a network under its name and the label. *)
Definition save_network (n : NetId) (net : Network)
  (network_label epoch_label : string) (gpus : list Z) : M unit :=
  log (EvSave n network_label epoch_label) ;;
  write_disk network_label epoch_label (net_params net).

(** Modelled from the spec: [load_network] of models/base_model.py loads the
    parameters back into the network object. *)
Definition load_network (n : NetId) (net : Network)
  (network_label epoch_label : string) : M unit :=
  log (EvLoad n network_label epoch_label) ;;
  p <- read_disk network_label epoch_label ;;
  modify_net n (fun net' => mkNetwork (net_arch net') p (net_grad net')).

(** [networks.print_network(net)] *)
Definition print_network (n : NetId) (net : Network) : M unit :=
  log (EvPrintNetwork n).

Definition print (line : string) : M unit := log (EvPrint line).

End Operations.

(** ** The class Vox2VoxModel *)

(** The batch handed to [set_input]: [input['A']], [input['B']],
    [input['A_paths']], [input['B_paths']]. *)
Record Batch {B : Backend} : Type := mkBatch {
  batch_A : tensor;
  batch_B : tensor;
  batch_A_paths : list string;
  batch_B_paths : list string
}.

Section Vox2VoxModel.

Context {B : Backend}.

Definition name : string := "Vox2VoxModel".

Definition initialize (o : Opt.t) : M unit :=
  BaseModel_initialize o ;;
  setattr isTrain (Opt.isTrain o) ;;
  setattr no_img (Opt.no_img o && (Opt.output_nc o =? 1)%Z)%bool ;;
  (* load and define networks according to opts *)
  gpus <- getattr gpu_ids ;;
  log (EvDefine NetG) ;;
  (let g := define_G (Opt.input_nc o) (Opt.output_nc o) (Opt.ngf o)
              (Opt.which_model_netG o) (Opt.norm o) (negb (Opt.no_dropout o))
              (Opt.init_type o) gpus in
   setattr netG (mkNetwork (fst g) (snd g) None)) ;;
  train <- getattr isTrain ;;
  (if train then
     let use_sigmoid := Opt.no_lsgan o in
     gpus <- getattr gpu_ids ;;
     log (EvDefine NetD) ;;
     (let d := define_D (Opt.input_nc o + Opt.output_nc o)%Z (Opt.ndf o)
                 (Opt.which_model_netD o) (Opt.n_layers_D o) (Opt.norm o)
                 use_sigmoid (Opt.init_type o) gpus in
      setattr netD (mkNetwork (fst d) (snd d) None))
   else ret tt) ;;
  train <- getattr isTrain ;;
  (if (negb train || Opt.continue_train o)%bool then
     g <- getattr netG ;;
     load_network NetG g "G" (Opt.which_epoch o) ;;
     train <- getattr isTrain ;;
     if train then
       d <- getattr netD ;;
       load_network NetD d "D" (Opt.which_epoch o)
     else ret tt
   else ret tt) ;;
  train <- getattr isTrain ;;
  (if train then
     pool <- new_ImagePool (Opt.pool_size o) ;;
     setattr fake_AB_pool pool ;;
     (* define loss functions *)
     (if Opt.wasserstein o then
        setattr criterionGAN WassersteinLoss
      else
        ty <- getattr Tensor ;;
        setattr criterionGAN (GANLossObj (negb (Opt.no_lsgan o)) ty)) ;;
     (if String.eqb (Opt.recon_loss o) "l1" then
        setattr criterionL1 L1LossObj
      else if String.eqb (Opt.recon_loss o) "l2" then
        setattr criterionL1 MSELossObj
      else
        raise (NotImplementedError "Not a valid reconstruction loss")) ;;
     (* initialize optimizers *)
     setattr schedulers [] ;;
     setattr optimizers [] ;;
     _ <- getattr netG ;;
     og <- Adam NetG (Opt.lr o) (Opt.beta1 o, 0.999) ;;
     setattr optimizer_G og ;;
     _ <- getattr netD ;;
     od <- Adam NetD (Opt.lr o) (Opt.beta1 o, 0.999) ;;
     setattr optimizer_D od ;;
     os <- getattr optimizers ;;
     og <- getattr optimizer_G ;;
     setattr optimizers (os ++ [target og]) ;;
     os <- getattr optimizers ;;
     od <- getattr optimizer_D ;;
     setattr optimizers (os ++ [target od]) ;;
     os <- getattr optimizers ;;
     for_each os (fun optimizer =>
       ss <- getattr schedulers ;;
       log (EvScheduler optimizer) ;;
       setattr schedulers (ss ++ [get_scheduler optimizer o]))
   else ret tt) ;;
  print "---------- Networks initialized ----------" ;;
  g <- getattr netG ;;
  print_network NetG g ;;
  train <- getattr isTrain ;;
  (if train then
     d <- getattr netD ;;
     print_network NetD d
   else ret tt) ;;
  print "------------------------------------------".

Definition set_input (input : Batch) : M unit :=
  o <- getattr opt ;;
  let AtoB := String.eqb (Opt.which_direction o) "AtoB" in
  let a := if AtoB then batch_A input else batch_B input in
  let b := if AtoB then batch_B input else batch_A input in
  gpus <- getattr gpu_ids ;;
  (match gpus with
   | [] =>
       setattr input_A a ;;
       setattr input_B b
   | g0 :: _ =>
       setattr input_A (cuda g0 a) ;;
       setattr input_B (cuda g0 b)
   end) ;;
  setattr image_paths
    (if AtoB then batch_A_paths input else batch_B_paths input).

Definition forward : M unit :=
  (* run this after setting inputs *)
  a <- getattr input_A ;;
  setattr real_A (new_Variable a false) ;;
  g <- getattr netG ;;
  x <- getattr real_A ;;
  y <- call NetG g x ;;
  setattr fake_B y ;;
  b <- getattr input_B ;;
  setattr real_B (new_Variable b false).

Definition test : M unit :=
  (* no backprop on gradients *)
  a <- getattr input_A ;;
  setattr real_A (new_Variable a true) ;;
  g <- getattr netG ;;
  x <- getattr real_A ;;
  y <- call NetG g x ;;
  setattr fake_B y ;;
  b <- getattr input_B ;;
  setattr real_B (new_Variable b true).

Definition get_image_paths : M (list string) := getattr image_paths.

Definition backward_D : M unit :=
  (* first stop backprop to the generator by detaching fake_B *)
  pool <- getattr fake_AB_pool ;;
  ra <- getattr real_A ;;
  fb <- getattr fake_B ;;
  fake_AB <- query pool (data (torch_cat ra fb)) ;;
  d <- getattr netD ;;
  pred_fake <- call NetD d (detach fake_AB) ;;
  crit <- getattr criterionGAN ;;
  setattr loss_D_fake (call_criterionGAN crit pred_fake false) ;;
  (* real *)
  ra <- getattr real_A ;;
  rb <- getattr real_B ;;
  let real_AB := torch_cat ra rb in
  d <- getattr netD ;;
  pred_real <- call NetD d real_AB ;;
  crit <- getattr criterionGAN ;;
  setattr loss_D_real (call_criterionGAN crit pred_real true) ;;
  (* combined loss *)
  lf <- getattr loss_D_fake ;;
  lr <- getattr loss_D_real ;;
  setattr loss_D (var_mul (var_add lf lr) 0.5) ;;
  l <- getattr loss_D ;;
  backward l.

Definition backward_G : M unit :=
  (* first G(A) should fake the discriminator *)
  ra <- getattr real_A ;;
  fb <- getattr fake_B ;;
  let fake_AB := torch_cat ra fb in
  d <- getattr netD ;;
  pred_fake <- call NetD d fake_AB ;;
  crit <- getattr criterionGAN ;;
  setattr loss_G_GAN (call_criterionGAN crit pred_fake true) ;;
  (* second G(A) = B *)
  crit1 <- getattr criterionL1 ;;
  fb <- getattr fake_B ;;
  rb <- getattr real_B ;;
  o <- getattr opt ;;
  setattr loss_G_L1 (var_mul (call_criterionL1 crit1 fb rb) (Opt.lambda_A o)) ;;
  gan <- getattr loss_G_GAN ;;
  l1 <- getattr loss_G_L1 ;;
  setattr loss_G (var_add gan l1) ;;
  l <- getattr loss_G ;;
  backward l.

(** torch's [clamp_] on one value, [(x < lo) ? lo : (x > hi ? hi : x)]:
    both comparisons fail on a NaN, which is left as it is. *)
Definition clamp (lo hi : Q) (x : Value) : Value :=
  if val_lt x (Num lo) then Num lo
  else if val_lt (Num hi) x then Num hi
  else x.

Definition clamp_ (lo hi : Q) (D_param : Param) : Param :=
  map (clamp lo hi) D_param.

Definition clip_D : M unit :=
  d <- getattr netD ;;
  log (EvClamp NetD (-0.01) 0.01) ;;
  setattr netD
    (mkNetwork (net_arch d)
       (map (fun D_param => clamp_ (-0.01) 0.01 D_param) (net_params d))
       (net_grad d)).

Definition optimize_parameters : M unit :=
  forward ;;
  od <- getattr optimizer_D ;;
  zero_grad od ;;
  backward_D ;;
  od <- getattr optimizer_D ;;
  od' <- step od ;;
  setattr optimizer_D od' ;;
  o <- getattr opt ;;
  (if Opt.wasserstein o then clip_D else ret tt) ;;
  og <- getattr optimizer_G ;;
  zero_grad og ;;
  backward_G ;;
  og <- getattr optimizer_G ;;
  og' <- step og ;;
  setattr optimizer_G og'.

(** The two halves of [optimize_parameters] after the forward pass: the
    discriminator's (zero_grad, backward_D, step, clipping) and the
    generator's (zero_grad, backward_G, step). *)
Definition discriminator_update : M unit :=
  od <- getattr optimizer_D ;;
  zero_grad od ;;
  backward_D ;;
  od <- getattr optimizer_D ;;
  od' <- step od ;;
  setattr optimizer_D od' ;;
  o <- getattr opt ;;
  if Opt.wasserstein o then clip_D else ret tt.

Definition generator_update : M unit :=
  og <- getattr optimizer_G ;;
  zero_grad og ;;
  backward_G ;;
  og <- getattr optimizer_G ;;
  og' <- step og ;;
  setattr optimizer_G og'.

Definition get_current_errors : M (list (string * Q)) :=
  g_gan <- getattr loss_G_GAN ;;
  g_l1 <- getattr loss_G_L1 ;;
  d_real <- getattr loss_D_real ;;
  d_fake <- getattr loss_D_fake ;;
  ret [("G_GAN"%string, data g_gan); ("G_L1"%string, data g_l1);
       ("D_real"%string, data d_real); ("D_fake"%string, data d_fake)].

Definition save (label : string) : M unit :=
  g <- getattr netG ;;
  gpus <- getattr gpu_ids ;;
  save_network NetG g "G" label gpus ;;
  d <- getattr netD ;;
  gpus <- getattr gpu_ids ;;
  save_network NetD d "D" label gpus.

End Vox2VoxModel.

(** ** A small backend to run the model on *)

(** Its tensors hold rationals, so its forward pass reads a NaN parameter as
    0; its optimizer step propagates NaN as arithmetic does. *)
Definition toy_sum (l : list Q) : Q := fold_right Qplus 0 l.

Definition toy_num (x : Value) : Q :=
  match x with
  | Num q => q
  | NaN => 0
  end.

(** [p - lr * g] *)
Definition toy_step (lr : Q) (p g : Value) : Value :=
  match p, g with
  | Num a, Num b => Num (a - lr * b)
  | _, _ => NaN
  end.

Definition toy_backend : Backend := {|
  tensor := list Q;
  arch := unit;
  adam_state := nat;
  scheduler := NetId;
  define_G := fun _ _ _ _ _ _ _ _ => (tt, [nums [2; 1]]);
  define_D := fun _ _ _ _ _ _ _ _ => (tt, [nums [3; -5]; nums [0.005]]);
  net_forward := fun _ p x =>
    map (fun v => v + toy_sum (map toy_num (concat p))) x;
  cat1 := fun a b => a ++ b;
  mean := fun x => toy_sum x / inject_Z (Z.of_nat (List.length x));
  cuda := fun _ x => x;
  L1Loss := fun x y =>
    toy_sum (map (fun uv => Qabs (fst uv - snd uv)) (combine x y));
  MSELoss := fun x y =>
    toy_sum (map (fun uv => (fst uv - snd uv) * (fst uv - snd uv)) (combine x y));
  GANLoss := fun _ _ x y =>
    toy_sum (map (fun v => (v - (if y then 1 else 0)) * (v - (if y then 1 else 0))) x);
  autograd := fun _ _ => [nums [1; 1]; nums [1]];
  adam_init := 0%nat;
  adam_update := fun lr _ st p g =>
    (map (fun xy => map (fun uv => toy_step lr (fst uv) (snd uv))
                      (combine (fst xy) (snd xy)))
       (combine p g), S st);
  get_scheduler := fun n _ => n;
  rand_keep := Nat.even;
  rand_slot := fun t => t
|}.

Definition toy_opt (train w : bool) (recon : string) : Opt.t :=
  Opt.mk train false 1 1 64 64 "unet" "basic" 3 "batch" false "normal" []
    false false "latest" 0 w recon 0.0002 0.5 100 "AtoB".

Definition new_world {B : Backend} : World :=
  mkWorld new_self [] (fun _ _ => []) 0.

Definition toy_batch : @Batch toy_backend :=
  @mkBatch toy_backend [1; 2] [3; 4] ["a"%string] ["b"%string].

Definition run {B : Backend} {A : Type} (c : M A) (w : World) : World := snd (c w).

Definition toy_trained (w : bool) : @World toy_backend :=
  run (set_input toy_batch) (run (initialize (toy_opt true w "l1")) new_world).

Definition toy_G : @Network toy_backend :=
  @mkNetwork toy_backend tt [nums [2; 1]] None.

Definition toy_D : @Network toy_backend :=
  @mkNetwork toy_backend tt [nums [3; -5]; nums [0.005]] None.

Definition toy_Adam (n : NetId) : @Optimizer toy_backend :=
  @mkOptimizer toy_backend n 0.0002 (0.5, 0.999) 0%nat.


(** ** Reporting and repeated iterations *)

(** [get_current_visuals].  [util.tensor2vid] is not under src/ and is a
    parameter: [tensor2vid x None] stands for [util.tensor2vid(x)] and
    [tensor2vid x (Some false)] for [util.tensor2vid(x, gray_to_rgb=False)]. *)
Definition get_current_visuals {B : Backend} {V : Type}
  (tensor2vid : tensor -> option bool -> V) : M (list (string * V)) :=
  ra <- getattr real_A ;;
  let real_A_vid := tensor2vid (data ra) None in
  gray <- getattr no_img ;;
  if gray then
    fb <- getattr fake_B ;;
    let fake_B_vid := tensor2vid (data fb) (Some false) in
    rb <- getattr real_B ;;
    let real_B_vid := tensor2vid (data rb) (Some false) in
    ret [("real_A"%string, real_A_vid); ("fake_B"%string, fake_B_vid);
         ("real_B"%string, real_B_vid)]
  else
    fb <- getattr fake_B ;;
    let fake_B_vid := tensor2vid (data fb) None in
    rb <- getattr real_B ;;
    let real_B_vid := tensor2vid (data rb) None in
    ret [("real_A"%string, real_A_vid); ("fake_B"%string, fake_B_vid);
         ("real_B"%string, real_B_vid)].

(** [n] calls of [optimize_parameters] in a row on the stored input. *)
Fixpoint iterations {B : Backend} (n : nat) : M unit :=
  match n with
  | O => ret tt
  | S n' => optimize_parameters ;; iterations n'
  end.

(** The toy model initialized for inference, with its input. *)
Definition toy_inference : @World toy_backend :=
  run (set_input toy_batch)
    (run (initialize (toy_opt false false "l1")) new_world).

(** ** Lifecycle states *)

(** [trained w ...]: the attributes a training-mode [initialize] leaves
    behind, with the optimizers holding the parameters of their networks. *)
Definition trained {B : Backend} (w : World) (g d : Network)
  (pool : ImagePool) (crit : GanCriterion) (crit1 : ReconCriterion)
  (og od : Optimizer) (o : Opt.t) : Prop :=
  self w netG = Some g /\ self w netD = Some d /\
  self w fake_AB_pool = Some pool /\
  self w criterionGAN = Some crit /\ self w criterionL1 = Some crit1 /\
  self w optimizer_G = Some og /\ self w optimizer_D = Some od /\
  target og = NetG /\ target od = NetD /\
  self w opt = Some o.

(** [fed w a b]: [set_input] has stored the pair [(a, b)]. *)
Definition fed {B : Backend} (w : World) (a b : tensor) : Prop :=
  self w input_A = Some a /\ self w input_B = Some b.

(** What [forward] leaves in [fake_B]: the generator's output on [a], with
    its history. *)
Definition G_output {B : Backend} (g : Network) (a : tensor) : Var tensor :=
  mkVar (net_forward (net_arch g) (net_params g) a)
    (GNet NetG (net_arch g) (net_params g) a GLeaf) false.

(** The discriminator's loss as [backward_D] builds it from the pooled fake
    pair and the real pair. *)
Definition D_loss {B : Backend} (crit : GanCriterion) (d : Network)
  (pooled real_AB : tensor) : Var Q :=
  var_mul
    (var_add (call_criterionGAN crit (D_score d pooled) false)
       (call_criterionGAN crit (D_score d real_AB) true))
    0.5.

(** The generator's loss as [backward_G] builds it. *)
Definition G_loss {B : Backend} (crit : GanCriterion) (crit1 : ReconCriterion)
  (d : Network) (a b : tensor) (fb : Var tensor) (lambda : Q) : Var Q :=
  var_add
    (call_criterionGAN crit
       (mkVar (net_forward (net_arch d) (net_params d) (cat1 a (data fb)))
          (GNet NetD (net_arch d) (net_params d) (cat1 a (data fb))
             (GCat GLeaf (grad_fn fb)))
          false)
       true)
    (var_mul (call_criterionL1 crit1 fb (new_Variable b false)) lambda).

(** Every discriminator parameter value lies in [[-0.01, 0.01]]. *)
Definition D_params_clipped {B : Backend} (w : World) : Prop :=
  exists d : Network,
    self w netD = Some d /\
    Forall (Forall (in_range (-0.01) 0.01)) (net_params d).

(** Every discriminator parameter value that is not NaN lies in
    [[-0.01, 0.01]]. *)
Definition in_range_unless_nan (lo hi : Q) (x : Value) : Prop :=
  match x with
  | Num q => lo <= q /\ q <= hi
  | NaN => True
  end.

Definition D_params_clipped_unless_nan {B : Backend} (w : World) : Prop :=
  exists d : Network,
    self w netD = Some d /\
    Forall (Forall (in_range_unless_nan (-0.01) 0.01)) (net_params d).

(** The calls of network [n] among the events of a trace. *)
Definition is_forward {B : Backend} (n : NetId) (e : Event) : bool :=
  match e with
  | EvForward n' _ => NetId_eqb n n'
  | _ => false
  end.

Definition forward_calls {B : Backend} (n : NetId) (tr : list Event) : nat :=
  List.length (filter (is_forward n) tr).

(** The toy model resumed in Wasserstein mode from a discriminator checkpoint
    that holds a NaN, with its input. *)
Definition toy_nan_opt : Opt.t :=
  Opt.mk true false 1 1 64 64 "unet" "basic" 3 "batch" false "normal" []
    false true "latest" 0 true "l1" 0.0002 0.5 100 "AtoB".

Definition toy_nan_disk (network_label epoch_label : string) : Params :=
  if String.eqb network_label "D" then [[NaN; Num 0.5]] else [nums [2; 1]].

Definition toy_nan_trained : @World toy_backend :=
  run (set_input toy_batch)
    (run (initialize toy_nan_opt)
       (@mkWorld toy_backend new_self [] toy_nan_disk 0)).

(** * Properties *)

Unset Implicit Arguments.

(** ** Attribute lookup *)

Lemma NetId_eqb_eq (a b : NetId) : NetId_eqb a b = true <-> a = b.
Proof. destruct a, b; simpl; split; congruence. Qed.

Lemma self_set_same {B : Backend} (a : Attr) (v : AttrTy a) (s : Self) :
  self_set a v s a = Some v.
Proof. destruct a; reflexivity. Qed.

Lemma self_set_other {B : Backend} (a a' : Attr) (v : AttrTy a) (s : Self) :
  a <> a' -> self_set a v s a' = s a'.
Proof.
  intros Hne. unfold self_set.
  destruct (Attr_eq_dec a a') as [e | _]; [contradiction | reflexivity].
Qed.

(** ** Running the monad *)

Lemma bind_Ok {B : Backend} {A C : Type} (c : M A) (k : A -> M C)
  (w w' : World) (a : A) :
  c w = (Ok a, w') -> bind c k w = k a w'.
Proof. intros H. unfold bind. rewrite H. reflexivity. Qed.

Lemma bind_Raise {B : Backend} {A C : Type} (c : M A) (k : A -> M C)
  (w w' : World) (e : Exn) :
  c w = (Raise e, w') -> bind c k w = (Raise e, w').
Proof. intros H. unfold bind. rewrite H. reflexivity. Qed.

Lemma getattr_Some {B : Backend} (a : Attr) (v : AttrTy a) (w : World) :
  self w a = Some v -> getattr a w = (Ok v, w).
Proof. intros H. unfold getattr. rewrite H. reflexivity. Qed.

Lemma getattr_None {B : Backend} (a : Attr) (w : World) :
  self w a = None -> getattr a w = (Raise (AttributeError a), w).
Proof. intros H. unfold getattr. rewrite H. reflexivity. Qed.

Lemma setattr_run {B : Backend} (a : Attr) (v : AttrTy a) (w : World) :
  setattr a v w =
  (Ok tt, mkWorld (self_set a v (self w)) (trace w) (disk w) (tick w)).
Proof. reflexivity. Qed.

(** ** The forward pass *)

Lemma forward_spec {B : Backend} (w : World) (a b : tensor) (g : Network) :
  self w input_A = Some a ->
  self w input_B = Some b ->
  self w netG = Some g ->
  forward w =
  (Ok tt,
   mkWorld
     (self_set real_B (new_Variable b false)
        (self_set fake_B
           (mkVar (net_forward (net_arch g) (net_params g) a)
              (GNet NetG (net_arch g) (net_params g) a GLeaf) false)
           (self_set real_A (new_Variable a false) (self w))))
     (trace w ++ [EvForward NetG a]) (disk w) (tick w)).
Proof.
  intros Ha Hb Hg.
  unfold forward, bind, getattr, setattr, call, log, ret.
  cbn. rewrite Ha. cbn. rewrite Hg. cbn. rewrite Hb. reflexivity.
Qed.

Lemma test_spec {B : Backend} (w : World) (a b : tensor) (g : Network) :
  self w input_A = Some a ->
  self w input_B = Some b ->
  self w netG = Some g ->
  test w =
  (Ok tt,
   mkWorld
     (self_set real_B (new_Variable b true)
        (self_set fake_B
           (mkVar (net_forward (net_arch g) (net_params g) a) GLeaf true)
           (self_set real_A (new_Variable a true) (self w))))
     (trace w ++ [EvForward NetG a]) (disk w) (tick w)).
Proof.
  intros Ha Hb Hg.
  unfold test, bind, getattr, setattr, call, log, ret.
  cbn. rewrite Ha. cbn. rewrite Hg. cbn. rewrite Hb. reflexivity.
Qed.

(** ** The image pool *)

Lemma query_spec {B : Backend} (pool : ImagePool) (image : tensor) (w : World) :
  exists (v : Var tensor) (w' : World),
    query pool image w = (Ok v, w') /\
    grad_fn v = GLeaf /\ volatile v = false /\
    trace w' = trace w ++ [EvQuery image] /\
    disk w' = disk w /\
    (forall a, a <> fake_AB_pool -> self w' a = self w a) /\
    (self w fake_AB_pool = Some pool ->
     exists pool', self w' fake_AB_pool = Some pool').
Proof.
  unfold query, bind, log, ret, setattr, next_tick.
  cbn.
  destruct (pool_size pool =? 0)%Z.
  { do 2 eexists. split; [reflexivity |]. cbn.
    repeat split; eauto. }
  destruct (Z.of_nat (length (images pool)) <? pool_size pool)%Z.
  { do 2 eexists. split; [reflexivity |]. cbn.
    repeat split; eauto.
    intros a Ha. apply self_set_other. congruence. }
  cbn. destruct (rand_keep (tick w)).
  { do 2 eexists. split; [reflexivity |]. cbn.
    repeat split; eauto. }
  destruct (nth_error (images pool) (rand_slot (tick w) mod length (images pool))).
  { cbn. do 2 eexists. split; [reflexivity |]. cbn.
    repeat split; eauto.
    intros a Ha. apply self_set_other. congruence. }
  { do 2 eexists. split; [reflexivity |]. cbn.
    repeat split; eauto. }
Qed.

(** ** The discriminator update *)

Lemma backward_D_spec {B : Backend} (w : World) (pool : ImagePool)
  (a b : tensor) (fb : Var tensor) (d : Network) (crit : GanCriterion) :
  self w fake_AB_pool = Some pool ->
  self w real_A = Some (new_Variable a false) ->
  self w fake_B = Some fb ->
  self w real_B = Some (new_Variable b false) ->
  self w netD = Some d ->
  self w criterionGAN = Some crit ->
  exists (pooled : Var tensor) (w1 : World),
    query pool (cat1 a (data fb)) w = (Ok pooled, w1) /\
    backward_D w =
    (Ok tt,
     let lf := call_criterionGAN crit (D_score d (data pooled)) false in
     let lr := call_criterionGAN crit (D_score d (cat1 a b)) true in
     let lD := var_mul (var_add lf lr) 0.5 in
     mkWorld
       (self_set netD
          (mkNetwork (net_arch d) (net_params d)
             (Some (add_grad (net_grad d) (autograd NetD (grad_fn lD)))))
          (self_set loss_D lD
             (self_set loss_D_real lr
                (self_set loss_D_fake lf (self w1)))))
       (trace w1 ++ [EvForward NetD (data pooled); EvForward NetD (cat1 a b);
                     EvBackward (grad_fn lD)])
       (disk w1) (tick w1)).
Proof.
  intros Hpool Hra Hfb Hrb Hd Hcrit.
  destruct (query_spec pool (cat1 a (data fb)) w)
    as (pooled & w1 & Hq & Hleaf & Hvol & Htr & Hdisk & Hframe & _).
  exists pooled, w1. split; [exact Hq |].
  unfold backward_D.
  rewrite (bind_Ok _ _ _ _ _ (getattr_Some _ _ _ Hpool)).
  rewrite (bind_Ok _ _ _ _ _ (getattr_Some _ _ _ Hra)).
  rewrite (bind_Ok _ _ _ _ _ (getattr_Some _ _ _ Hfb)).
  change (data (torch_cat (new_Variable a false) fb)) with (cat1 a (data fb)).
  rewrite (bind_Ok _ _ _ _ _ Hq).
  assert (Hd1 : self w1 netD = Some d) by (rewrite Hframe; [exact Hd | discriminate]).
  assert (Hc1 : self w1 criterionGAN = Some crit)
    by (rewrite Hframe; [exact Hcrit | discriminate]).
  assert (Hra1 : self w1 real_A = Some (new_Variable a false))
    by (rewrite Hframe; [exact Hra | discriminate]).
  assert (Hrb1 : self w1 real_B = Some (new_Variable b false))
    by (rewrite Hframe; [exact Hrb | discriminate]).
  rewrite (bind_Ok _ _ _ _ _ (getattr_Some _ _ _ Hd1)).
  unfold bind, getattr, setattr, call, log, ret, backward, accumulate,
    modify_net, get_net, set_net, detach, D_score.
  rewrite Hvol.
  destruct crit;
    repeat (progress (cbn; rewrite ?Hc1, ?Hra1, ?Hrb1, ?Hd1));
    rewrite <- !app_assoc; reflexivity.
Qed.

(** ** The generator's backward pass *)

Lemma backward_G_spec {B : Backend} (w : World) (a b fbd : tensor)
  (gfb : Graph tensor arch) (g d : Network) (crit : GanCriterion)
  (crit1 : ReconCriterion) (o : Opt.t) :
  self w real_A = Some (new_Variable a false) ->
  self w fake_B = Some (mkVar fbd gfb false) ->
  reaches NetG gfb = true ->
  self w real_B = Some (new_Variable b false) ->
  self w netG = Some g ->
  self w netD = Some d ->
  self w criterionGAN = Some crit ->
  self w criterionL1 = Some crit1 ->
  self w opt = Some o ->
  backward_G w =
  (Ok tt,
   let fb := mkVar fbd gfb false in
   let pred_fake :=
     mkVar (net_forward (net_arch d) (net_params d) (cat1 a fbd))
       (GNet NetD (net_arch d) (net_params d) (cat1 a fbd) (GCat GLeaf gfb))
       false in
   let gan := call_criterionGAN crit pred_fake true in
   let l1 := var_mul (call_criterionL1 crit1 fb (new_Variable b false))
               (Opt.lambda_A o) in
   let lG := var_add gan l1 in
   mkWorld
     (self_set netD
        (mkNetwork (net_arch d) (net_params d)
           (Some (add_grad (net_grad d) (autograd NetD (grad_fn lG)))))
        (self_set netG
           (mkNetwork (net_arch g) (net_params g)
              (Some (add_grad (net_grad g) (autograd NetG (grad_fn lG)))))
           (self_set loss_G lG
              (self_set loss_G_L1 l1
                 (self_set loss_G_GAN gan (self w))))))
     (trace w ++ [EvForward NetD (cat1 a fbd); EvBackward (grad_fn lG)])
     (disk w) (tick w)).
Proof.
  intros Hra Hfb Hreach Hrb Hg Hd Hcrit Hcrit1 Ho.
  unfold backward_G, backward, call, accumulate, modify_net, get_net, set_net,
    bind, getattr, setattr, log, ret, call_criterionGAN,
    call_criterionL1, var_add, var_mul, var_mean, torch_cat, record,
    requires_grad.
  destruct crit, crit1;
    repeat (progress
              (cbn;
               rewrite ?Hra, ?Hfb, ?Hrb, ?Hg, ?Hd, ?Hcrit, ?Hcrit1, ?Ho, ?Hreach));
    rewrite <- ?app_assoc; reflexivity.
Qed.

(** ** Optimizer steps and clipping *)

Lemma zero_grad_D_spec {B : Backend} (w : World) (od : Optimizer) (d : Network) :
  target od = NetD ->
  self w netD = Some d ->
  zero_grad od w =
  (Ok tt,
   mkWorld
     (self_set netD
        (mkNetwork (net_arch d) (net_params d) (option_map zeros (net_grad d)))
        (self w))
     (trace w ++ [EvZeroGrad NetD]) (disk w) (tick w)).
Proof.
  intros Ht Hd. unfold zero_grad, modify_net, bind, log. rewrite Ht. cbn.
  rewrite Hd. reflexivity.
Qed.

Lemma zero_grad_G_spec {B : Backend} (w : World) (og : Optimizer) (g : Network) :
  target og = NetG ->
  self w netG = Some g ->
  zero_grad og w =
  (Ok tt,
   mkWorld
     (self_set netG
        (mkNetwork (net_arch g) (net_params g) (option_map zeros (net_grad g)))
        (self w))
     (trace w ++ [EvZeroGrad NetG]) (disk w) (tick w)).
Proof.
  intros Ht Hg. unfold zero_grad, modify_net, bind, log. rewrite Ht. cbn.
  rewrite Hg. reflexivity.
Qed.

Lemma step_D_spec {B : Backend} (w : World) (od : Optimizer) (d : Network)
  (gr : Params) :
  target od = NetD ->
  self w netD = Some d ->
  net_grad d = Some gr ->
  step od w =
  (let r := adam_update (opt_lr od) (opt_betas od) (opt_state od)
              (net_params d) gr in
   (Ok (mkOptimizer NetD (opt_lr od) (opt_betas od) (snd r)),
    mkWorld
      (self_set netD (mkNetwork (net_arch d) (fst r) (Some gr)) (self w))
      (trace w ++ [EvStep NetD]) (disk w) (tick w))).
Proof.
  intros Ht Hd Hgr. unfold step, bind, log. rewrite Ht. cbn.
  rewrite Hd, Hgr. reflexivity.
Qed.

Lemma step_G_spec {B : Backend} (w : World) (og : Optimizer) (g : Network)
  (gr : Params) :
  target og = NetG ->
  self w netG = Some g ->
  net_grad g = Some gr ->
  step og w =
  (let r := adam_update (opt_lr og) (opt_betas og) (opt_state og)
              (net_params g) gr in
   (Ok (mkOptimizer NetG (opt_lr og) (opt_betas og) (snd r)),
    mkWorld
      (self_set netG (mkNetwork (net_arch g) (fst r) (Some gr)) (self w))
      (trace w ++ [EvStep NetG]) (disk w) (tick w))).
Proof.
  intros Ht Hg Hgr. unfold step, bind, log. rewrite Ht. cbn.
  rewrite Hg, Hgr. reflexivity.
Qed.

Lemma clip_D_spec {B : Backend} (w : World) (d : Network) :
  self w netD = Some d ->
  clip_D w =
  (Ok tt,
   mkWorld
     (self_set netD
        (mkNetwork (net_arch d) (map (clamp_ (-0.01) 0.01) (net_params d))
           (net_grad d))
        (self w))
     (trace w ++ [EvClamp NetD (-0.01) 0.01]) (disk w) (tick w)).
Proof.
  intros Hd. unfold clip_D, bind, getattr, log, setattr. rewrite Hd.
  reflexivity.
Qed.

Lemma clamp_within (lo hi : Q) (x : Value) :
  lo <= hi -> in_range_unless_nan lo hi (clamp lo hi x).
Proof.
  intros Hlh. destruct x as [q |]; [| exact I].
  unfold clamp, val_lt.
  destruct (Qle_bool lo q) eqn:E1; cbn.
  - destruct (Qle_bool q hi) eqn:E2; cbn.
    + split; apply Qle_bool_iff; assumption.
    + split; [exact Hlh | apply Qle_refl].
  - split; [apply Qle_refl | exact Hlh].
Qed.

Lemma clamp_NaN (lo hi : Q) : clamp lo hi NaN = NaN.
Proof. reflexivity. Qed.

Lemma clamp__within (lo hi : Q) (p : Param) :
  lo <= hi -> Forall (in_range_unless_nan lo hi) (clamp_ lo hi p).
Proof.
  intros Hlh. unfold clamp_. apply Forall_map, Forall_forall.
  intros x _. apply clamp_within. exact Hlh.
Qed.

(** ** The two updates of an iteration *)

Ltac name_world H wn :=
  match type of H with _ = (_, ?W) => set (wn := W) in * end.

Ltac look wn := unfold wn; cbn; try eassumption; try reflexivity.

Lemma discriminator_update_spec {B : Backend} (w : World) (pool : ImagePool)
  (a b : tensor) (fb : Var tensor) (d : Network) (crit : GanCriterion)
  (od : Optimizer) (o : Opt.t) :
  self w fake_AB_pool = Some pool ->
  self w real_A = Some (new_Variable a false) ->
  self w fake_B = Some fb ->
  self w real_B = Some (new_Variable b false) ->
  self w netD = Some d ->
  self w criterionGAN = Some crit ->
  self w optimizer_D = Some od ->
  target od = NetD ->
  self w opt = Some o ->
  exists (pooled : tensor) (w' : World),
    discriminator_update w = (Ok tt, w') /\
    let lf := call_criterionGAN crit (D_score d pooled) false in
    let lr := call_criterionGAN crit (D_score d (cat1 a b)) true in
    let lD := var_mul (var_add lf lr) 0.5 in
    let gr := add_grad (option_map zeros (net_grad d))
                (autograd NetD (grad_fn lD)) in
    let r := adam_update (opt_lr od) (opt_betas od) (opt_state od)
               (net_params d) gr in
    trace w' =
      trace w ++
      [EvZeroGrad NetD; EvQuery (cat1 a (data fb)); EvForward NetD pooled;
       EvForward NetD (cat1 a b); EvBackward (grad_fn lD); EvStep NetD] ++
      (if Opt.wasserstein o then [EvClamp NetD (-0.01) 0.01] else []) /\
    self w' netD =
      Some (mkNetwork (net_arch d)
              (if Opt.wasserstein o
               then map (clamp_ (-0.01) 0.01) (fst r) else fst r)
              (Some gr)) /\
    self w' optimizer_D =
      Some (mkOptimizer NetD (opt_lr od) (opt_betas od) (snd r)) /\
    self w' loss_D_fake = Some lf /\
    self w' loss_D_real = Some lr /\
    self w' loss_D = Some lD /\
    (exists pool', self w' fake_AB_pool = Some pool') /\
    disk w' = disk w /\
    (forall x : Attr,
        ~ In x [netD; optimizer_D; loss_D_fake; loss_D_real; loss_D;
                fake_AB_pool] ->
        self w' x = self w x).
Proof.
  intros Hpool Hra Hfb Hrb Hd Hcrit Hod Hodt Ho.
  unfold discriminator_update.
  rewrite (bind_Ok _ _ _ _ _ (getattr_Some _ _ _ Hod)).
  pose proof (zero_grad_D_spec w od d Hodt Hd) as Hz. name_world Hz wz.
  rewrite (bind_Ok _ _ _ _ _ Hz).
  destruct (backward_D_spec wz pool a b fb
              (mkNetwork (net_arch d) (net_params d)
                 (option_map zeros (net_grad d))) crit)
    as (pooled & w1 & Hq & Hb); try (look wz).
  destruct (query_spec pool (cat1 a (data fb)) wz)
    as (pooled' & w1' & Hq' & _ & _ & Htr1 & Hdisk1 & Hframe1 & Hpool1).
  rewrite Hq in Hq'. injection Hq' as <- <-.
  destruct Hpool1 as [pool' Hpool']; [look wz |].
  cbn [net_arch net_params net_grad] in Hb. cbn zeta in Hb. name_world Hb wb.
  rewrite (bind_Ok _ _ _ _ _ Hb).
  assert (Hod1 : self wb optimizer_D = Some od).
  { unfold wb. cbn. rewrite Hframe1 by discriminate. look wz. }
  rewrite (bind_Ok _ _ _ _ _ (getattr_Some _ _ _ Hod1)).
  pose proof (step_D_spec wb od _ _ Hodt ltac:(look wb) eq_refl) as Hs.
  cbn zeta in Hs. name_world Hs ws.
  rewrite (bind_Ok _ _ _ _ _ Hs).
  pose proof (setattr_run optimizer_D
                (mkOptimizer NetD (opt_lr od) (opt_betas od)
                   (snd (adam_update (opt_lr od) (opt_betas od) (opt_state od)
                           (net_params d)
                           (add_grad (option_map zeros (net_grad d))
                              (autograd NetD
                                 (grad_fn
                                    (var_mul
                                       (var_add
                                          (call_criterionGAN crit
                                             (D_score d (data pooled)) false)
                                          (call_criterionGAN crit
                                             (D_score d (cat1 a b)) true))
                                       0.5))))))) ws) as Hso.
  name_world Hso wo.
  rewrite (bind_Ok _ _ _ _ _ Hso).
  assert (Ho1 : self wo opt = Some o).
  { unfold wo, ws, wb. cbn. rewrite Hframe1 by discriminate. look wz. }
  rewrite (bind_Ok _ _ _ _ _ (getattr_Some _ _ _ Ho1)).
  exists (data pooled).
  destruct (Opt.wasserstein o) eqn:Hw.
  - eexists. split.
    { apply clip_D_spec. look wo. }
    cbn. unfold wo, ws, wb. cbn. rewrite Htr1. unfold wz. cbn.
    rewrite <- !app_assoc. cbn.
    repeat split; try reflexivity.
    + exists pool'. exact Hpool'.
    + rewrite Hdisk1. reflexivity.
    + intros x Hx. cbn in Hx.
      rewrite !self_set_other by (intros <-; apply Hx; tauto).
      rewrite Hframe1 by (intros ->; apply Hx; tauto).
      apply self_set_other. intros <-; apply Hx; tauto.
  - eexists. split.
    { reflexivity. }
    cbn. unfold wo, ws, wb. cbn. rewrite Htr1. unfold wz. cbn.
    rewrite <- !app_assoc. cbn.
    repeat split; try reflexivity.
    + exists pool'. exact Hpool'.
    + rewrite Hdisk1. reflexivity.
    + intros x Hx. cbn in Hx.
      rewrite !self_set_other by (intros <-; apply Hx; tauto).
      rewrite Hframe1 by (intros ->; apply Hx; tauto).
      apply self_set_other. intros <-; apply Hx; tauto.
Qed.

Lemma generator_update_spec {B : Backend} (w : World) (a b fbd : tensor)
  (gfb : Graph tensor arch) (g d : Network) (crit : GanCriterion)
  (crit1 : ReconCriterion) (og : Optimizer) (o : Opt.t) :
  self w real_A = Some (new_Variable a false) ->
  self w fake_B = Some (mkVar fbd gfb false) ->
  reaches NetG gfb = true ->
  self w real_B = Some (new_Variable b false) ->
  self w netG = Some g ->
  self w netD = Some d ->
  self w criterionGAN = Some crit ->
  self w criterionL1 = Some crit1 ->
  self w optimizer_G = Some og ->
  target og = NetG ->
  self w opt = Some o ->
  exists w' : World,
    generator_update w = (Ok tt, w') /\
    let fb := mkVar fbd gfb false in
    let pred_fake :=
      mkVar (net_forward (net_arch d) (net_params d) (cat1 a fbd))
        (GNet NetD (net_arch d) (net_params d) (cat1 a fbd) (GCat GLeaf gfb))
        false in
    let gan := call_criterionGAN crit pred_fake true in
    let l1 := var_mul (call_criterionL1 crit1 fb (new_Variable b false))
                (Opt.lambda_A o) in
    let lG := var_add gan l1 in
    let gr := add_grad (option_map zeros (net_grad g))
                (autograd NetG (grad_fn lG)) in
    let r := adam_update (opt_lr og) (opt_betas og) (opt_state og)
               (net_params g) gr in
    trace w' =
      trace w ++
      [EvZeroGrad NetG; EvForward NetD (cat1 a fbd); EvBackward (grad_fn lG);
       EvStep NetG] /\
    self w' netG = Some (mkNetwork (net_arch g) (fst r) (Some gr)) /\
    self w' netD =
      Some (mkNetwork (net_arch d) (net_params d)
              (Some (add_grad (net_grad d) (autograd NetD (grad_fn lG))))) /\
    self w' optimizer_G =
      Some (mkOptimizer NetG (opt_lr og) (opt_betas og) (snd r)) /\
    self w' loss_G_GAN = Some gan /\
    self w' loss_G_L1 = Some l1 /\
    self w' loss_G = Some lG /\
    disk w' = disk w /\
    (forall x : Attr,
        ~ In x [netG; netD; optimizer_G; loss_G_GAN; loss_G_L1; loss_G] ->
        self w' x = self w x).
Proof.
  intros Hra Hfb Hreach Hrb Hg Hd Hcrit Hcrit1 Hog Hogt Ho.
  unfold generator_update.
  rewrite (bind_Ok _ _ _ _ _ (getattr_Some _ _ _ Hog)).
  pose proof (zero_grad_G_spec w og g Hogt Hg) as Hz. name_world Hz wz.
  rewrite (bind_Ok _ _ _ _ _ Hz).
  pose proof (backward_G_spec wz a b fbd gfb
                (mkNetwork (net_arch g) (net_params g)
                   (option_map zeros (net_grad g))) d crit crit1 o) as Hb.
  cbn [net_arch net_params net_grad] in Hb. cbn zeta in Hb.
  specialize (Hb ltac:(look wz) ltac:(look wz) Hreach ltac:(look wz)
                 ltac:(look wz) ltac:(look wz) ltac:(look wz) ltac:(look wz)
                 ltac:(look wz)).
  name_world Hb wb.
  rewrite (bind_Ok _ _ _ _ _ Hb).
  assert (Hog1 : self wb optimizer_G = Some og) by (look wb).
  rewrite (bind_Ok _ _ _ _ _ (getattr_Some _ _ _ Hog1)).
  pose proof (step_G_spec wb og _ _ Hogt ltac:(look wb) eq_refl) as Hs.
  cbn zeta in Hs. cbn [net_arch net_params net_grad] in Hs. name_world Hs ws.
  rewrite (bind_Ok _ _ _ _ _ Hs).
  eexists. split; [apply setattr_run |].
  cbn. unfold wz. cbn. rewrite <- !app_assoc. cbn.
  repeat split; try reflexivity.
  intros x Hx. cbn in Hx.
  rewrite !self_set_other by (intros <-; apply Hx; tauto).
  reflexivity.
Qed.

Lemma bind_assoc {B : Backend} {A C D : Type} (c : M A) (k : A -> M C)
  (h : C -> M D) (w : World) :
  bind (bind c k) h w = bind c (fun x => bind (k x) h) w.
Proof. unfold bind. destruct (c w) as [[x | e] w']; reflexivity. Qed.

Lemma bind_ext {B : Backend} {A C : Type} (c : M A) (k k' : A -> M C)
  (w : World) :
  (forall x w', k x w' = k' x w') -> bind c k w = bind c k' w.
Proof.
  intros H. unfold bind. destruct (c w) as [[x | e] w']; [apply H | reflexivity].
Qed.

Lemma optimize_parameters_phases {B : Backend} (w : World) :
  optimize_parameters w =
  (forward ;; discriminator_update ;; generator_update) w.
Proof.
  unfold optimize_parameters, discriminator_update.
  apply bind_ext. intros _ w1.
  repeat (rewrite bind_assoc; apply bind_ext; intros ? ?).
  destruct (Opt.wasserstein _); reflexivity.
Qed.

(** ** One iteration *)

Lemma optimize_parameters_spec {B : Backend} (w : World) (a b : tensor)
  (g d : Network) (pool : ImagePool) (crit : GanCriterion)
  (crit1 : ReconCriterion) (og od : Optimizer) (o : Opt.t) :
  fed w a b ->
  trained w g d pool crit crit1 og od o ->
  exists (pooled : tensor) (w1 w2 w3 : World),
    forward w = (Ok tt, w1) /\
    discriminator_update w1 = (Ok tt, w2) /\
    generator_update w2 = (Ok tt, w3) /\
    optimize_parameters w = (Ok tt, w3) /\
    let fb := G_output g a in
    let lD := D_loss crit d pooled (cat1 a b) in
    let grD := add_grad (option_map zeros (net_grad d))
                 (autograd NetD (grad_fn lD)) in
    let rD := adam_update (opt_lr od) (opt_betas od) (opt_state od)
                (net_params d) grD in
    let pD := if Opt.wasserstein o
              then map (clamp_ (-0.01) 0.01) (fst rD) else fst rD in
    let d2 := mkNetwork (net_arch d) pD (Some grD) in
    let lG := G_loss crit crit1 d2 a b fb (Opt.lambda_A o) in
    trace w3 =
      trace w ++
      [EvForward NetG a;
       EvZeroGrad NetD; EvQuery (cat1 a (data fb)); EvForward NetD pooled;
       EvForward NetD (cat1 a b); EvBackward (grad_fn lD); EvStep NetD] ++
      (if Opt.wasserstein o then [EvClamp NetD (-0.01) 0.01] else []) ++
      [EvZeroGrad NetG; EvForward NetD (cat1 a (data fb));
       EvBackward (grad_fn lG); EvStep NetG] /\
    (self w1 fake_B = Some fb /\ self w2 fake_B = Some fb /\
     self w3 fake_B = Some fb) /\
    (self w1 netG = Some g /\ self w2 netG = Some g) /\
    self w2 netD = Some d2 /\
    (exists gr3, self w3 netD = Some (mkNetwork (net_arch d) pD gr3)) /\
    fed w3 a b /\
    (exists (g' d' : Network) (pool' : ImagePool) (og' od' : Optimizer),
        trained w3 g' d' pool' crit crit1 og' od' o) /\
    self w3 loss_D_fake = Some (call_criterionGAN crit (D_score d pooled) false) /\
    self w3 loss_D_real =
      Some (call_criterionGAN crit (D_score d (cat1 a b)) true) /\
    self w3 loss_G_GAN =
      Some (call_criterionGAN crit
              (mkVar (net_forward (net_arch d) pD (cat1 a (data fb)))
                 (GNet NetD (net_arch d) pD (cat1 a (data fb))
                    (GCat GLeaf (grad_fn fb)))
                 false)
              true) /\
    self w3 loss_G_L1 =
      Some (var_mul (call_criterionL1 crit1 fb (new_Variable b false))
              (Opt.lambda_A o)) /\
    disk w3 = disk w /\
    (forall x : Attr,
        ~ In x [real_A; fake_B; real_B; netD; optimizer_D; loss_D_fake;
                loss_D_real; loss_D; fake_AB_pool; netG; optimizer_G;
                loss_G_GAN; loss_G_L1; loss_G] ->
        self w3 x = self w x).
Proof.
  intros [Ha Hb] (Hg & Hd & Hpool & Hcrit & Hcrit1 & Hog & Hod & Hogt & Hodt & Ho).
  pose proof (forward_spec w a b g Ha Hb Hg) as Hf. name_world Hf w1.
  assert (Hpool1 : self w1 fake_AB_pool = Some pool) by (look w1).
  assert (Hra1 : self w1 real_A = Some (new_Variable a false)) by (look w1).
  assert (Hfb1 : self w1 fake_B = Some (G_output g a)) by (look w1).
  assert (Hrb1 : self w1 real_B = Some (new_Variable b false)) by (look w1).
  assert (Hd1 : self w1 netD = Some d) by (look w1).
  assert (Hg1 : self w1 netG = Some g) by (look w1).
  assert (Hc1 : self w1 criterionGAN = Some crit) by (look w1).
  assert (Hc11 : self w1 criterionL1 = Some crit1) by (look w1).
  assert (Hod1 : self w1 optimizer_D = Some od) by (look w1).
  assert (Hog1 : self w1 optimizer_G = Some og) by (look w1).
  assert (Ho1 : self w1 opt = Some o) by (look w1).
  assert (Ha1 : self w1 input_A = Some a) by (look w1).
  assert (Hb1 : self w1 input_B = Some b) by (look w1).
  destruct (discriminator_update_spec w1 pool a b (G_output g a) d crit od o
              Hpool1 Hra1 Hfb1 Hrb1 Hd1 Hc1 Hod1 Hodt Ho1)
    as (pooled & w2 & Hdu & Htr2 & Hd2 & Hod2 & Hlf2 & Hlr2 & _
        & [pool2 Hpool2] & Hdisk2 & Hfr2).
  assert (Hfr2' : forall x, In x [real_A; fake_B; real_B; netG; criterionGAN;
                                  criterionL1; optimizer_G; opt; input_A;
                                  input_B] ->
                            self w2 x = self w1 x).
  { intros x Hx. apply Hfr2. cbn in Hx |- *.
    intuition (subst; discriminate). }
  assert (Hra2 : self w2 real_A = Some (new_Variable a false))
    by (rewrite Hfr2' by (cbn; tauto); exact Hra1).
  assert (Hfb2 : self w2 fake_B = Some (G_output g a))
    by (rewrite Hfr2' by (cbn; tauto); exact Hfb1).
  assert (Hrb2 : self w2 real_B = Some (new_Variable b false))
    by (rewrite Hfr2' by (cbn; tauto); exact Hrb1).
  assert (Hg2 : self w2 netG = Some g)
    by (rewrite Hfr2' by (cbn; tauto); exact Hg1).
  assert (Hc2 : self w2 criterionGAN = Some crit)
    by (rewrite Hfr2' by (cbn; tauto); exact Hc1).
  assert (Hc12 : self w2 criterionL1 = Some crit1)
    by (rewrite Hfr2' by (cbn; tauto); exact Hc11).
  assert (Hog2 : self w2 optimizer_G = Some og)
    by (rewrite Hfr2' by (cbn; tauto); exact Hog1).
  assert (Ho2 : self w2 opt = Some o)
    by (rewrite Hfr2' by (cbn; tauto); exact Ho1).
  destruct (generator_update_spec w2 a b (data (G_output g a))
              (grad_fn (G_output g a)) g _ crit crit1 og o
              Hra2 Hfb2 eq_refl Hrb2 Hg2 Hd2 Hc2 Hc12 Hog2 Hogt Ho2)
    as (w3 & Hgu & Htr3 & HG3 & Hd3 & Hog3 & Hgan3 & Hl13 & _ & Hdisk3 & Hfr3).
  assert (Hfr3' : forall x, In x [fake_B; fake_AB_pool; criterionGAN;
                                  criterionL1; optimizer_D; opt; input_A;
                                  input_B] ->
                            self w3 x = self w2 x).
  { intros x Hx. apply Hfr3. cbn in Hx |- *.
    intuition (subst; discriminate). }
  exists pooled, w1, w2, w3.
  split; [exact Hf |]. split; [exact Hdu |]. split; [exact Hgu |].
  split.
  { rewrite optimize_parameters_phases.
    rewrite (bind_Ok _ _ _ _ _ Hf). rewrite (bind_Ok _ _ _ _ _ Hdu).
    exact Hgu. }
  split.
  { rewrite Htr3, Htr2. unfold w1. cbn. rewrite <- !app_assoc. reflexivity. }
  split.
  { split; [exact Hfb1 |]. split; [exact Hfb2 |].
    rewrite Hfr3' by (cbn; tauto). exact Hfb2. }
  split; [split; [exact Hg1 | exact Hg2] |].
  split; [exact Hd2 |].
  split; [eexists; exact Hd3 |].
  split.
  { split; rewrite Hfr3', Hfr2' by (cbn; tauto); assumption. }
  split.
  2:{ split.
      { rewrite Hfr3 by (cbn; intuition discriminate). exact Hlf2. }
      split.
      { rewrite Hfr3 by (cbn; intuition discriminate). exact Hlr2. }
      split; [exact Hgan3 |]. split; [exact Hl13 |].
      split; [rewrite Hdisk3, Hdisk2; reflexivity |].
      intros x Hx. cbn in Hx.
      rewrite Hfr3 by (cbn; tauto). rewrite Hfr2 by (cbn; tauto).
      unfold w1. cbn.
      rewrite !self_set_other by (intros <-; apply Hx; tauto).
      reflexivity. }
  do 2 eexists. exists pool2. do 2 eexists.
  unfold trained.
  split; [exact HG3 |]. split; [exact Hd3 |].
  split; [rewrite Hfr3' by (cbn; tauto); exact Hpool2 |].
  split; [rewrite Hfr3' by (cbn; tauto); exact Hc2 |].
  split; [rewrite Hfr3' by (cbn; tauto); exact Hc12 |].
  split; [exact Hog3 |].
  split; [rewrite Hfr3' by (cbn; tauto); exact Hod2 |].
  split; [reflexivity |]. split; [reflexivity |].
  rewrite Hfr3' by (cbn; tauto). exact Ho2.
Qed.


(** ** Construction *)

Lemma initialize_test_mode {B : Backend} (o : Opt.t) (w0 : World) :
  Opt.isTrain o = false ->
  exists w' : World,
    initialize o w0 = (Ok tt, w') /\
    trace w' =
      trace w0 ++
      [EvDefine NetG; EvLoad NetG "G" (Opt.which_epoch o);
       EvPrint "---------- Networks initialized ----------";
       EvPrintNetwork NetG;
       EvPrint "------------------------------------------"] /\
    self w' netG =
      Some (mkNetwork
              (fst (define_G (Opt.input_nc o) (Opt.output_nc o) (Opt.ngf o)
                      (Opt.which_model_netG o) (Opt.norm o)
                      (negb (Opt.no_dropout o)) (Opt.init_type o)
                      (Opt.gpu_ids o)))
              (disk w0 "G"%string (Opt.which_epoch o)) None) /\
    self w' isTrain = Some false /\
    self w' gpu_ids = Some (Opt.gpu_ids o) /\
    disk w' = disk w0 /\
    (forall x : Attr,
        ~ In x [opt; gpu_ids; isTrain; Tensor; no_img; netG] ->
        self w' x = self w0 x).
Proof.
  intros Ht.
  unfold initialize, BaseModel_initialize, load_network, print_network, print,
    modify_net, get_net, set_net, read_disk, bind, getattr, setattr, log, ret.
  rewrite Ht. cbn.
  eexists. split; [reflexivity |]. cbn. rewrite <- !app_assoc. cbn.
  repeat (split; [reflexivity |]).
  intros x Hx. cbn in Hx.
  rewrite !self_set_other by (intros <-; apply Hx; tauto).
  reflexivity.
Qed.

Lemma initialize_train_mode {B : Backend} (o : Opt.t) (w0 : World) :
  Opt.isTrain o = true ->
  (String.eqb (Opt.recon_loss o) "l1" || String.eqb (Opt.recon_loss o) "l2")%bool
    = true ->
  exists w' : World,
    initialize o w0 = (Ok tt, w') /\
    let dG := define_G (Opt.input_nc o) (Opt.output_nc o) (Opt.ngf o)
                (Opt.which_model_netG o) (Opt.norm o)
                (negb (Opt.no_dropout o)) (Opt.init_type o) (Opt.gpu_ids o) in
    let dD := define_D (Opt.input_nc o + Opt.output_nc o)%Z (Opt.ndf o)
                (Opt.which_model_netD o) (Opt.n_layers_D o) (Opt.norm o)
                (Opt.no_lsgan o) (Opt.init_type o) (Opt.gpu_ids o) in
    trained w'
      (mkNetwork (fst dG)
         (if Opt.continue_train o
          then disk w0 "G"%string (Opt.which_epoch o) else snd dG) None)
      (mkNetwork (fst dD)
         (if Opt.continue_train o
          then disk w0 "D"%string (Opt.which_epoch o) else snd dD) None)
      (mkImagePool (Opt.pool_size o) [])
      (if Opt.wasserstein o then WassersteinLoss
       else GANLossObj (negb (Opt.no_lsgan o))
              (match Opt.gpu_ids o with
               | [] => FloatTensor
               | _ :: _ => CudaFloatTensor
               end))
      (if String.eqb (Opt.recon_loss o) "l1" then L1LossObj else MSELossObj)
      (mkOptimizer NetG (Opt.lr o) (Opt.beta1 o, 0.999) adam_init)
      (mkOptimizer NetD (Opt.lr o) (Opt.beta1 o, 0.999) adam_init)
      o /\
    self w' optimizers = Some [NetG; NetD] /\
    self w' schedulers = Some [get_scheduler NetG o; get_scheduler NetD o] /\
    self w' gpu_ids = Some (Opt.gpu_ids o) /\
    self w' isTrain = Some true /\
    disk w' = disk w0.
Proof.
  intros Ht Hr.
  unfold trained, initialize, BaseModel_initialize, new_ImagePool, Adam,
    load_network, print_network, print,
    modify_net, get_net, set_net, read_disk, bind, getattr, setattr, log, ret.
  rewrite Ht. cbn.
  destruct (Opt.continue_train o), (Opt.wasserstein o),
    (String.eqb (Opt.recon_loss o) "l1"); cbn in Hr |- *;
    rewrite ?Hr; cbn;
    (eexists; split; [reflexivity |]; cbn; repeat split; reflexivity).
Qed.

Lemma initialize_bad_recon_loss {B : Backend} (o : Opt.t) (w0 : World) :
  Opt.isTrain o = true ->
  (String.eqb (Opt.recon_loss o) "l1" || String.eqb (Opt.recon_loss o) "l2")%bool
    = false ->
  exists w' : World,
    initialize o w0 =
      (Raise (NotImplementedError "Not a valid reconstruction loss"), w') /\
    trace w' =
      trace w0 ++ [EvDefine NetG; EvDefine NetD] ++
      (if Opt.continue_train o
       then [EvLoad NetG "G" (Opt.which_epoch o);
             EvLoad NetD "D" (Opt.which_epoch o)]
       else []) ++
      [EvImagePool (Opt.pool_size o)] /\
    (forall x : Attr,
        In x [schedulers; optimizers; optimizer_G; optimizer_D; criterionL1] ->
        self w' x = self w0 x).
Proof.
  intros Ht Hr. apply orb_false_elim in Hr. destruct Hr as [H1 H2].
  unfold initialize, BaseModel_initialize, new_ImagePool, Adam,
    load_network, print_network, print,
    modify_net, get_net, set_net, read_disk, bind, getattr, setattr, log, ret.
  rewrite Ht, H1, H2. cbn.
  destruct (Opt.continue_train o), (Opt.wasserstein o); cbn;
    (eexists; split; [reflexivity |]; cbn; rewrite <- ?app_assoc; cbn;
     split; [reflexivity |];
     intros x Hx; cbn in Hx;
     rewrite !self_set_other by (intros <-; intuition discriminate);
     reflexivity).
Qed.

(** ** Inputs *)

Lemma set_input_spec {B : Backend} (input : Batch) (w : World) (o : Opt.t)
  (gpus : list Z) :
  self w opt = Some o ->
  self w gpu_ids = Some gpus ->
  exists w' : World,
    set_input input w = (Ok tt, w') /\
    let AtoB := String.eqb (Opt.which_direction o) "AtoB" in
    let a := if AtoB then batch_A input else batch_B input in
    let b := if AtoB then batch_B input else batch_A input in
    fed w'
      (match gpus with [] => a | g0 :: _ => cuda g0 a end)
      (match gpus with [] => b | g0 :: _ => cuda g0 b end) /\
    trace w' = trace w /\
    disk w' = disk w /\
    (forall x : Attr,
        ~ In x [input_A; input_B; image_paths] -> self w' x = self w x).
Proof.
  intros Ho Hg.
  unfold set_input, fed, bind, getattr, setattr, ret.
  rewrite Ho. cbn. rewrite Hg.
  destruct gpus as [| g0 gs]; cbn;
    (eexists; split; [reflexivity |]; cbn;
     split; [split; reflexivity |];
     split; [reflexivity |];
     split; [reflexivity |];
     intros x Hx; cbn in Hx;
     rewrite !self_set_other by (intros <-; apply Hx; tauto);
     reflexivity).
Qed.

Lemma trained_frame {B : Backend} (w w' : World) (g d : Network)
  (pool : ImagePool) (crit : GanCriterion) (crit1 : ReconCriterion)
  (og od : Optimizer) (o : Opt.t) :
  (forall x : Attr,
      In x [netG; netD; fake_AB_pool; criterionGAN; criterionL1; optimizer_G;
            optimizer_D; opt] ->
      self w' x = self w x) ->
  trained w g d pool crit crit1 og od o ->
  trained w' g d pool crit crit1 og od o.
Proof.
  intros Hfr (Hg & Hd & Hpool & Hcrit & Hcrit1 & Hog & Hod & Hogt & Hodt & Ho).
  unfold trained.
  rewrite !Hfr by (cbn; tauto).
  repeat split; assumption.
Qed.

(** A training-mode [initialize] followed by [set_input] gives a model on
    which [optimize_parameters] can be called. *)
Lemma initialize_set_input_ready {B : Backend} (o : Opt.t) (input : Batch)
  (w0 : World) :
  Opt.isTrain o = true ->
  (String.eqb (Opt.recon_loss o) "l1" || String.eqb (Opt.recon_loss o) "l2")%bool
    = true ->
  exists (w1 w2 : World) (g d : Network) (pool : ImagePool)
         (crit : GanCriterion) (crit1 : ReconCriterion) (og od : Optimizer)
         (a b : tensor),
    initialize o w0 = (Ok tt, w1) /\
    set_input input w1 = (Ok tt, w2) /\
    trained w2 g d pool crit crit1 og od o /\
    fed w2 a b.
Proof.
  intros Ht Hr.
  destruct (initialize_train_mode o w0 Ht Hr)
    as (w1 & Hinit & Htr & _ & _ & Hgp & _).
  cbn zeta in Htr.
  pose proof Htr as (_ & _ & _ & _ & _ & _ & _ & _ & _ & Ho).
  destruct (set_input_spec input w1 o (Opt.gpu_ids o) Ho Hgp)
    as (w2 & Hset & Hfed & _ & _ & Hfr).
  exists w1, w2. do 9 eexists.
  split; [exact Hinit |]. split; [exact Hset |].
  split; [| exact Hfed].
  eapply trained_frame; [| exact Htr].
  intros x Hx. apply Hfr. cbn in Hx |- *. intuition (subst; discriminate).
Qed.

(** * The claims *)

(** C1. One call of [optimize_parameters] on a trained model holding its
    input returns, and the calls it makes are, in this order: the generator's
    forward pass on [real_A] (once); for the discriminator [zero_grad], the
    pool query on [cat(real_A, fake_B)], the two discriminator passes, the
    backward pass of [loss_D] and the optimizer step; the clamp exactly when
    [opt.wasserstein] is set; for the generator [zero_grad], the
    discriminator pass on [cat(real_A, fake_B)], the backward pass of
    [loss_G] and the optimizer step.  The [fake_B] in both halves is the one
    the single forward pass produced, and it is still [self.fake_B] at the
    end; the generator's loss is taken against the discriminator as its own
    update left it. *)
Theorem optimize_parameters_order {B : Backend} (w : World) (a b : tensor)
  (g d : Network) (pool : ImagePool) (crit : GanCriterion)
  (crit1 : ReconCriterion) (og od : Optimizer) (o : Opt.t) :
  fed w a b ->
  trained w g d pool crit crit1 og od o ->
  exists (pooled : tensor) (w' : World),
    optimize_parameters w = (Ok tt, w') /\
    let fb := G_output g a in
    let lD := D_loss crit d pooled (cat1 a b) in
    let grD := add_grad (option_map zeros (net_grad d))
                 (autograd NetD (grad_fn lD)) in
    let rD := adam_update (opt_lr od) (opt_betas od) (opt_state od)
                (net_params d) grD in
    let pD := if Opt.wasserstein o
              then map (clamp_ (-0.01) 0.01) (fst rD) else fst rD in
    let lG := G_loss crit crit1 (mkNetwork (net_arch d) pD (Some grD)) a b fb
                (Opt.lambda_A o) in
    trace w' =
      trace w ++
      [EvForward NetG a;
       EvZeroGrad NetD; EvQuery (cat1 a (data fb)); EvForward NetD pooled;
       EvForward NetD (cat1 a b); EvBackward (grad_fn lD); EvStep NetD] ++
      (if Opt.wasserstein o then [EvClamp NetD (-0.01) 0.01] else []) ++
      [EvZeroGrad NetG; EvForward NetD (cat1 a (data fb));
       EvBackward (grad_fn lG); EvStep NetG] /\
    self w' fake_B = Some fb.
Proof.
  intros Hfed Htr.
  destruct (optimize_parameters_spec w a b g d pool crit crit1 og od o Hfed Htr)
    as (pooled & w1 & w2 & w3 & _ & _ & _ & Hrun & Htrace & (_ & _ & Hfb) & _).
  exists pooled, w3. split; [exact Hrun |]. split; [exact Htrace | exact Hfb].
Qed.

Lemma optimize_parameters_order_witness :
  fed (toy_trained true) [1; 2] [3; 4] /\
  trained (toy_trained true) toy_G toy_D (mkImagePool 0 []) WassersteinLoss
    L1LossObj (toy_Adam NetG) (toy_Adam NetD) (toy_opt true true "l1") /\
  exists w' : @World toy_backend,
    optimize_parameters (toy_trained true) = (Ok tt, w') /\
    self w' fake_B = Some (G_output toy_G [1; 2]).
Proof.
  assert (Hfed : fed (toy_trained true) [1; 2] [3; 4])
    by (split; reflexivity).
  assert (Htr : trained (toy_trained true) toy_G toy_D (mkImagePool 0 [])
                  WassersteinLoss L1LossObj (toy_Adam NetG) (toy_Adam NetD)
                  (toy_opt true true "l1"))
    by (repeat split; reflexivity).
  split; [exact Hfed |]. split; [exact Htr |].
  destruct (optimize_parameters_order (toy_trained true) [1; 2] [3; 4] toy_G
              toy_D (mkImagePool 0 []) WassersteinLoss L1LossObj
              (toy_Adam NetG) (toy_Adam NetD) (toy_opt true true "l1")
              Hfed Htr)
    as (pooled & w' & Hrun & _ & Hfb).
  exists w'. split; [exact Hrun | exact Hfb].
Defined.

(** C2. In [backward_D] the fake pair goes through the pool's [query] on
    [.data] and is detached before the discriminator sees it: whatever
    history [fake_B] has, the graphs of [loss_D_fake] and [loss_D] do not
    reach the generator, and neither the backward pass nor the following
    step of the discriminator's optimizer changes the generator object
    (parameters and gradients). *)
Theorem backward_D_stops_gradient {B : Backend} (w : World) (pool : ImagePool)
  (a b : tensor) (fb : Var tensor) (d : Network) (crit : GanCriterion)
  (od : Optimizer) :
  self w fake_AB_pool = Some pool ->
  self w real_A = Some (new_Variable a false) ->
  self w fake_B = Some fb ->
  self w real_B = Some (new_Variable b false) ->
  self w netD = Some d ->
  self w criterionGAN = Some crit ->
  target od = NetD ->
  exists (lf lD : Var Q) (w1 w2 : World) (od' : Optimizer),
    backward_D w = (Ok tt, w1) /\
    self w1 loss_D_fake = Some lf /\
    self w1 loss_D = Some lD /\
    reaches NetG (grad_fn lf) = false /\
    reaches NetG (grad_fn lD) = false /\
    self w1 netG = self w netG /\
    step od w1 = (Ok od', w2) /\
    self w2 netG = self w netG.
Proof.
  intros Hpool Hra Hfb Hrb Hd Hcrit Hodt.
  destruct (backward_D_spec w pool a b fb d crit Hpool Hra Hfb Hrb Hd Hcrit)
    as (pooled & wq & Hq & Hb).
  destruct (query_spec pool (cat1 a (data fb)) w)
    as (pooled' & wq' & Hq' & _ & _ & _ & _ & Hframe & _).
  rewrite Hq in Hq'. injection Hq' as <- <-.
  cbn zeta in Hb. name_world Hb w1.
  pose proof (step_D_spec w1 od _ _ Hodt ltac:(look w1) eq_refl) as Hs.
  cbn zeta in Hs. name_world Hs w2.
  assert (HG : self wq netG = self w netG) by (apply Hframe; discriminate).
  do 2 eexists. exists w1, w2. eexists.
  split; [exact Hb |].
  split; [look w1 |]. split; [look w1 |].
  split; [destruct crit; reflexivity |].
  split; [destruct crit; reflexivity |].
  split; [exact HG |].
  split; [exact Hs | exact HG].
Qed.

Lemma backward_D_stops_gradient_witness :
  exists w1 w2 : @World toy_backend,
    backward_D (run forward (toy_trained true)) = (Ok tt, w1) /\
    self w2 netG = Some toy_G.
Proof.
  destruct (backward_D_stops_gradient (run forward (toy_trained true))
              (mkImagePool 0 []) [1; 2] [3; 4] (G_output toy_G [1; 2]) toy_D
              WassersteinLoss (toy_Adam NetD)
              eq_refl eq_refl eq_refl eq_refl eq_refl eq_refl eq_refl)
    as (lf & lD & w1 & w2 & od' & Hb & _ & _ & _ & _ & _ & _ & HG).
  exists w1, w2. split; [exact Hb | exact HG].
Defined.

(** C3, as the code has it.  With [opt.wasserstein] set, when the
    discriminator half of [optimize_parameters] is over (its optimizer has
    stepped and [clip_D] has run) every discriminator parameter value that is
    not NaN lies in [[-0.01, 0.01]]; this is the state the generator half
    starts from, and it still holds when [optimize_parameters] returns.
    Without [opt.wasserstein] no clamp is called and the discriminator's
    parameters are the ones its optimizer step produced. *)
Theorem wasserstein_clips_discriminator {B : Backend} (w : World)
  (a b : tensor) (g d : Network) (pool : ImagePool) (crit : GanCriterion)
  (crit1 : ReconCriterion) (og od : Optimizer) (o : Opt.t) :
  fed w a b ->
  trained w g d pool crit crit1 og od o ->
  exists (w1 w2 w3 : World),
    forward w = (Ok tt, w1) /\
    discriminator_update w1 = (Ok tt, w2) /\
    generator_update w2 = (Ok tt, w3) /\
    optimize_parameters w = (Ok tt, w3) /\
    if Opt.wasserstein o
    then D_params_clipped_unless_nan w2 /\ D_params_clipped_unless_nan w3
    else
      exists (gr : Params) (d2 : Network) (evs : list Event),
        self w2 netD = Some d2 /\
        net_params d2 =
          fst (adam_update (opt_lr od) (opt_betas od) (opt_state od)
                 (net_params d) gr) /\
        trace w3 = trace w ++ evs /\
        forall (n : NetId) (lo hi : Q), ~ In (EvClamp n lo hi) evs.
Proof.
  intros Hfed Htr.
  destruct (optimize_parameters_spec w a b g d pool crit crit1 og od o Hfed Htr)
    as (pooled & w1 & w2 & w3 & Hf & Hdu & Hgu & Hrun & Htrace & _ & _ & Hd2
        & (gr3 & Hd3) & _).
  exists w1, w2, w3. repeat (split; [assumption |]).
  cbn zeta in *.
  destruct (Opt.wasserstein o).
  - assert (Hle : -0.01 <= 0.01) by (unfold Qle; cbn; lia).
    split; eexists; (split; [eassumption |]); cbn;
      apply Forall_map, Forall_forall; intros p _;
      apply clamp__within; exact Hle.
  - do 3 eexists. split; [exact Hd2 |]. split; [reflexivity |].
    split; [exact Htrace |].
    intros n lo hi Hin. cbn in Hin.
    repeat (destruct Hin as [Hin | Hin]; [discriminate |]). exact Hin.
Qed.

Lemma wasserstein_clips_discriminator_witness :
  exists w3 : @World toy_backend,
    optimize_parameters (toy_trained true) = (Ok tt, w3) /\
    D_params_clipped_unless_nan w3.
Proof.
  destruct (wasserstein_clips_discriminator (toy_trained true) [1; 2] [3; 4]
              toy_G toy_D (mkImagePool 0 []) WassersteinLoss L1LossObj
              (toy_Adam NetG) (toy_Adam NetD) (toy_opt true true "l1"))
    as (w1 & w2 & w3 & _ & _ & _ & Hrun & _ & Hc).
  - split; reflexivity.
  - repeat split; reflexivity.
  - exists w3. split; [exact Hrun | exact Hc].
Defined.

(** C3 as stated fails on a NaN.  The model is resumed in Wasserstein mode
    from a discriminator checkpoint holding a NaN: the optimizer step leaves
    the NaN a NaN, [clamp_] compares it with both bounds in vain, and after
    the discriminator half and at the end of [optimize_parameters] that
    parameter is not in [[-0.01, 0.01]]. *)
Lemma wasserstein_keeps_nan_parameter :
  Opt.wasserstein toy_nan_opt = true /\
  exists w1 w2 w3 : @World toy_backend,
    forward toy_nan_trained = (Ok tt, w1) /\
    discriminator_update w1 = (Ok tt, w2) /\
    generator_update w2 = (Ok tt, w3) /\
    optimize_parameters toy_nan_trained = (Ok tt, w3) /\
    ~ D_params_clipped w2 /\ ~ D_params_clipped w3.
Proof.
  split; [reflexivity |].
  destruct (optimize_parameters_spec toy_nan_trained [1; 2] [3; 4]
              toy_G (@mkNetwork toy_backend tt [[NaN; Num 0.5]] None)
              (mkImagePool 0 []) WassersteinLoss L1LossObj
              (toy_Adam NetG) (toy_Adam NetD) toy_nan_opt)
    as (pooled & w1 & w2 & w3 & Hf & Hdu & Hgu & Hrun & _ & _ & _ & Hd2
        & (gr3 & Hd3) & _).
  - split; reflexivity.
  - repeat split; reflexivity.
  - exists w1, w2, w3. repeat (split; [assumption |]).
    cbn zeta in Hd2, Hd3.
    split; intros (d' & Hd' & Hall).
    + rewrite Hd2 in Hd'. injection Hd' as <-.
      apply Forall_inv in Hall. apply Forall_inv in Hall. exact Hall.
    + rewrite Hd3 in Hd'. injection Hd' as <-.
      apply Forall_inv in Hall. apply Forall_inv in Hall. exact Hall.
Qed.

(** C4. A training-mode [initialize] with [opt.wasserstein] set stores as
    [self.criterionGAN] the function whose value on a prediction [x] and a
    label [y] is [mean(x)] times [-1] when [y] is [True] (the real label) and
    times [+1] when [y] is [False] (the fake label). *)
Theorem wasserstein_criterion {B : Backend} (o : Opt.t) (w0 : World) :
  Opt.isTrain o = true ->
  Opt.wasserstein o = true ->
  exists c : GanCriterion,
    self (snd (initialize o w0)) criterionGAN = Some c /\
    forall x : Var tensor,
      data (call_criterionGAN c x true) = mean (data x) * (-1) /\
      data (call_criterionGAN c x false) = mean (data x) * 1.
Proof.
  intros Ht Hw. exists WassersteinLoss. split.
  - unfold initialize, BaseModel_initialize, new_ImagePool, Adam,
      load_network, print_network, print,
      modify_net, get_net, set_net, read_disk, bind, getattr, setattr, log, ret.
    rewrite Ht, Hw. cbn.
    destruct (Opt.continue_train o), (String.eqb (Opt.recon_loss o) "l1"),
      (String.eqb (Opt.recon_loss o) "l2"); reflexivity.
  - intros x. split; reflexivity.
Qed.

Lemma wasserstein_criterion_witness :
  exists c : GanCriterion,
    self (snd (initialize (toy_opt true true "l1") (@new_world toy_backend)))
      criterionGAN = Some c /\
    data (call_criterionGAN c (@new_Variable toy_backend [1; 2; 6] false) true)
    == -3.
Proof.
  destruct (wasserstein_criterion (toy_opt true true "l1")
              (@new_world toy_backend) eq_refl eq_refl) as (c & Hc & Hv).
  exists c. split; [exact Hc |].
  destruct (Hv (@new_Variable toy_backend [1; 2; 6] false)) as [Hreal _].
  rewrite Hreal. vm_compute. reflexivity.
Defined.

(** C5. In training mode [initialize] selects [torch.nn.L1Loss] (the mean
    absolute difference) for [opt.recon_loss = 'l1'] and [torch.nn.MSELoss]
    (the mean squared difference) for ['l2'].  For every other value it
    raises [NotImplementedError]; at that point both networks and the pool
    exist, but no Adam optimizer and no scheduler has been constructed, and
    [schedulers], [optimizers], [optimizer_G] and [optimizer_D] have not been
    assigned. *)
Theorem initialize_recon_loss {B : Backend} (o : Opt.t) (w0 : World) :
  Opt.isTrain o = true ->
  exists (r : Result unit) (w' : World),
    initialize o w0 = (r, w') /\
    if String.eqb (Opt.recon_loss o) "l1" then
      r = Ok tt /\ self w' criterionL1 = Some L1LossObj /\
      forall x y : Var tensor,
        data (call_criterionL1 L1LossObj x y) = L1Loss (data x) (data y)
    else if String.eqb (Opt.recon_loss o) "l2" then
      r = Ok tt /\ self w' criterionL1 = Some MSELossObj /\
      forall x y : Var tensor,
        data (call_criterionL1 MSELossObj x y) = MSELoss (data x) (data y)
    else
      r = Raise (NotImplementedError "Not a valid reconstruction loss") /\
      (exists evs : list Event,
          trace w' = trace w0 ++ evs /\
          forall n : NetId, ~ In (EvAdam n) evs /\ ~ In (EvScheduler n) evs) /\
      forall x : Attr,
        In x [schedulers; optimizers; optimizer_G; optimizer_D] ->
        self w' x = self w0 x.
Proof.
  intros Ht.
  destruct (String.eqb (Opt.recon_loss o) "l1") eqn:E1;
    [| destruct (String.eqb (Opt.recon_loss o) "l2") eqn:E2].
  - destruct (initialize_train_mode o w0 Ht) as (w' & Hrun & Htr & _).
    { rewrite E1. reflexivity. }
    exists (Ok tt), w'. split; [exact Hrun |].
    cbn zeta in Htr. rewrite E1 in Htr.
    destruct Htr as (_ & _ & _ & _ & Hc & _).
    split; [reflexivity |]. split; [exact Hc |]. intros x y. reflexivity.
  - destruct (initialize_train_mode o w0 Ht) as (w' & Hrun & Htr & _).
    { rewrite E1, E2. reflexivity. }
    exists (Ok tt), w'. split; [exact Hrun |].
    cbn zeta in Htr. rewrite E1 in Htr.
    destruct Htr as (_ & _ & _ & _ & Hc & _).
    split; [reflexivity |]. split; [exact Hc |]. intros x y. reflexivity.
  - destruct (initialize_bad_recon_loss o w0 Ht) as (w' & Hrun & Htr & Hfr).
    { rewrite E1, E2. reflexivity. }
    eexists _, w'. split; [exact Hrun |].
    split; [reflexivity |]. split.
    + eexists. split; [exact Htr |].
      intros n. split; intros Hin; apply in_app_or in Hin;
        destruct Hin as [Hin | Hin];
        try (cbn in Hin; intuition discriminate);
        apply in_app_or in Hin; destruct Hin as [Hin | Hin];
        try (cbn in Hin; intuition discriminate);
        destruct (Opt.continue_train o); cbn in Hin; intuition discriminate.
    + intros x Hx. apply Hfr. cbn in Hx |- *. tauto.
Qed.

Lemma initialize_recon_loss_witness :
  exists w' : @World toy_backend,
    initialize (toy_opt true false "huber") new_world =
      (Raise (NotImplementedError "Not a valid reconstruction loss"), w') /\
    self w' optimizer_D = None.
Proof.
  destruct (initialize_recon_loss (toy_opt true false "huber")
              (@new_world toy_backend) eq_refl)
    as (r & w' & Hrun & Hr & _ & Hfr).
  exists w'. split.
  - rewrite Hrun, Hr. reflexivity.
  - exact (Hfr optimizer_D (or_intror (or_intror (or_intror (or_introl eq_refl))))).
Defined.

(** C6. After a forward pass [backward_D] returns and leaves in [self]:
    [loss_D_fake], the adversarial criterion against the fake label of the
    discriminator's score on what the pool's [query] returned for
    [cat(real_A, fake_B)]; [loss_D_real], the criterion against the real label
    of its score on [cat(real_A, real_B)]; and [loss_D], whose value is their
    sum times 0.5. *)
Theorem backward_D_losses {B : Backend} (w : World) (pool : ImagePool)
  (a b : tensor) (fb : Var tensor) (d : Network) (crit : GanCriterion) :
  self w fake_AB_pool = Some pool ->
  self w real_A = Some (new_Variable a false) ->
  self w fake_B = Some fb ->
  self w real_B = Some (new_Variable b false) ->
  self w netD = Some d ->
  self w criterionGAN = Some crit ->
  exists (pooled : Var tensor) (wq w' : World) (lf lr lD : Var Q),
    query pool (cat1 a (data fb)) w = (Ok pooled, wq) /\
    backward_D w = (Ok tt, w') /\
    self w' loss_D_fake = Some lf /\
    self w' loss_D_real = Some lr /\
    self w' loss_D = Some lD /\
    lf = call_criterionGAN crit (D_score d (data pooled)) false /\
    lr = call_criterionGAN crit (D_score d (cat1 a b)) true /\
    data lD = (data lf + data lr) * 0.5.
Proof.
  intros Hpool Hra Hfb Hrb Hd Hcrit.
  destruct (backward_D_spec w pool a b fb d crit Hpool Hra Hfb Hrb Hd Hcrit)
    as (pooled & wq & Hq & Hb).
  cbn zeta in Hb. name_world Hb w'.
  exists pooled, wq, w'. do 3 eexists.
  split; [exact Hq |]. split; [exact Hb |].
  split; [look w' |]. split; [look w' |]. split; [look w' |].
  split; [reflexivity |]. split; reflexivity.
Qed.

Lemma backward_D_losses_witness :
  exists (w' : @World toy_backend) (lf lr lD : Var Q),
    backward_D (run forward (toy_trained false)) = (Ok tt, w') /\
    self w' loss_D_fake = Some lf /\
    self w' loss_D_real = Some lr /\
    self w' loss_D = Some lD /\
    data lD = (data lf + data lr) * 0.5.
Proof.
  destruct (backward_D_losses (run forward (toy_trained false))
              (mkImagePool 0 []) [1; 2] [3; 4] (G_output toy_G [1; 2]) toy_D
              (GANLossObj true FloatTensor)
              eq_refl eq_refl eq_refl eq_refl eq_refl eq_refl)
    as (pooled & wq & w' & lf & lr & lD & _ & Hb & Hlf & Hlr & HlD & _ & _ & Hv).
  exists w', lf, lr, lD. repeat (split; [assumption |]). exact Hv.
Defined.

(** C7. After a forward pass [backward_G] returns and leaves in [self]:
    [loss_G_GAN], the adversarial criterion against the real label of the
    discriminator's score on [cat(real_A, fake_B)], a pair built from the
    variables themselves, so that its history goes through [fake_B] to the
    generator; [loss_G_L1], the reconstruction criterion between [fake_B] and
    [real_B] times [opt.lambda_A]; and [loss_G], their sum.  The pool is not
    queried and not changed, and the backward pass gives the generator its
    gradient. *)
Theorem backward_G_losses {B : Backend} (w : World) (a b fbd : tensor)
  (gfb : Graph tensor arch) (g d : Network) (crit : GanCriterion)
  (crit1 : ReconCriterion) (o : Opt.t) :
  self w real_A = Some (new_Variable a false) ->
  self w fake_B = Some (mkVar fbd gfb false) ->
  reaches NetG gfb = true ->
  self w real_B = Some (new_Variable b false) ->
  self w netG = Some g ->
  self w netD = Some d ->
  self w criterionGAN = Some crit ->
  self w criterionL1 = Some crit1 ->
  self w opt = Some o ->
  exists (w' : World) (gan l1 lG : Var Q),
    backward_G w = (Ok tt, w') /\
    self w' loss_G_GAN = Some gan /\
    self w' loss_G_L1 = Some l1 /\
    self w' loss_G = Some lG /\
    gan =
      call_criterionGAN crit
        (mkVar (net_forward (net_arch d) (net_params d) (cat1 a fbd))
           (GNet NetD (net_arch d) (net_params d) (cat1 a fbd)
              (GCat GLeaf gfb))
           false)
        true /\
    reaches NetG (grad_fn gan) = true /\
    data l1 =
      data (call_criterionL1 crit1 (mkVar fbd gfb false) (new_Variable b false))
      * Opt.lambda_A o /\
    data lG = data gan + data l1 /\
    trace w' = trace w ++ [EvForward NetD (cat1 a fbd); EvBackward (grad_fn lG)] /\
    self w' fake_AB_pool = self w fake_AB_pool /\
    self w' netG =
      Some (mkNetwork (net_arch g) (net_params g)
              (Some (add_grad (net_grad g) (autograd NetG (grad_fn lG))))).
Proof.
  intros Hra Hfb Hreach Hrb Hg Hd Hcrit Hcrit1 Ho.
  pose proof (backward_G_spec w a b fbd gfb g d crit crit1 o
                Hra Hfb Hreach Hrb Hg Hd Hcrit Hcrit1 Ho) as Hb.
  cbn zeta in Hb. name_world Hb w'.
  exists w'. do 3 eexists.
  split; [exact Hb |].
  split; [look w' |]. split; [look w' |]. split; [look w' |].
  split; [reflexivity |].
  split.
  { destruct crit; cbn; unfold record, requires_grad;
      repeat (progress (cbn; rewrite ?Hreach)); reflexivity. }
  split; [reflexivity |]. split; [reflexivity |].
  split; [reflexivity |]. split; reflexivity.
Qed.

Lemma backward_G_losses_witness :
  exists (w' : @World toy_backend) (gan l1 lG : Var Q),
    backward_G (run forward (toy_trained false)) = (Ok tt, w') /\
    self w' loss_G_GAN = Some gan /\
    self w' loss_G_L1 = Some l1 /\
    self w' loss_G = Some lG /\
    data lG = data gan + data l1.
Proof.
  destruct (backward_G_losses (run forward (toy_trained false))
              [1; 2] [3; 4] [4; 5] (GNet NetG tt [nums [2; 1]] [1; 2] GLeaf)
              toy_G toy_D (GANLossObj true FloatTensor) L1LossObj
              (toy_opt true false "l1")
              eq_refl eq_refl eq_refl eq_refl eq_refl eq_refl eq_refl eq_refl
              eq_refl)
    as (w' & gan & l1 & lG & Hb & Hgan & Hl1 & HlG & _ & _ & _ & Hv & _).
  exists w', gan, l1, lG. repeat (split; [assumption |]). exact Hv.
Defined.

(** C8. On a model that holds an input and a generator, [forward] and
    [test] both return, make the same generator call, and store the same
    values in [real_A], [fake_B] (the generator applied to [real_A]) and
    [real_B]; every other attribute, the files and the random stream are
    left alike.  They differ in recording only: the three variables of
    [test] are volatile and [fake_B] keeps no buffer, while [forward] records
    the generator's node with its saved input. *)
Theorem test_matches_forward {B : Backend} (w : World) (a b : tensor)
  (g : Network) :
  fed w a b ->
  self w netG = Some g ->
  exists (wf wt : World) (ra fb rb ra' fb' rb' : Var tensor),
    forward w = (Ok tt, wf) /\
    test w = (Ok tt, wt) /\
    (self wf real_A = Some ra /\ self wf fake_B = Some fb /\
     self wf real_B = Some rb) /\
    (self wt real_A = Some ra' /\ self wt fake_B = Some fb' /\
     self wt real_B = Some rb') /\
    (data ra' = data ra /\ data ra = a) /\
    (data fb' = data fb /\
     data fb = net_forward (net_arch g) (net_params g) a) /\
    (data rb' = data rb /\ data rb = b) /\
    (forall x : Attr,
        ~ In x [real_A; fake_B; real_B] -> self wt x = self wf x) /\
    (trace wt = trace wf /\ disk wt = disk wf /\ tick wt = tick wf) /\
    (volatile ra = false /\ volatile fb = false /\ volatile rb = false) /\
    (volatile ra' = true /\ volatile fb' = true /\ volatile rb' = true) /\
    buffers (grad_fn fb) = [a] /\
    buffers (grad_fn fb') = [].
Proof.
  intros [Ha Hb] Hg.
  pose proof (forward_spec w a b g Ha Hb Hg) as Hf. name_world Hf wf.
  pose proof (test_spec w a b g Ha Hb Hg) as Ht. name_world Ht wt.
  exists wf, wt. do 6 eexists.
  split; [exact Hf |]. split; [exact Ht |].
  split; [split; [look wf | split; look wf] |].
  split; [split; [look wt | split; look wt] |].
  split; [split; reflexivity |].
  split; [split; reflexivity |].
  split; [split; reflexivity |].
  split.
  { intros x Hx. cbn in Hx. unfold wt, wf. cbn.
    rewrite !self_set_other by (intros <-; apply Hx; tauto). reflexivity. }
  split; [repeat split |].
  split; [repeat split |].
  split; [repeat split |].
  split; reflexivity.
Qed.

Lemma test_matches_forward_witness :
  exists (wf wt : @World toy_backend) (fb fb' : Var tensor),
    forward (toy_trained true) = (Ok tt, wf) /\
    test (toy_trained true) = (Ok tt, wt) /\
    self wf fake_B = Some fb /\
    self wt fake_B = Some fb' /\
    data fb' = data fb.
Proof.
  destruct (test_matches_forward (toy_trained true) [1; 2] [3; 4] toy_G
              (conj eq_refl eq_refl) eq_refl)
    as (wf & wt & ra & fb & rb & ra' & fb' & rb' & Hf & Ht & (_ & Hfb & _)
        & (_ & Hfb' & _) & _ & (Hd & _) & _).
  exists wf, wt, fb, fb'. repeat (split; [assumption |]). exact Hd.
Defined.

(** C9. With [opt.isTrain] false, [initialize] returns having defined the
    generator, loaded its checkpoint and printed it, and nothing else: no
    discriminator is defined, no pool, Adam optimizer or scheduler is
    constructed, and [netD], [fake_AB_pool], [criterionGAN], [criterionL1],
    [schedulers], [optimizers], [optimizer_G] and [optimizer_D] are not
    assigned (on a new object they do not exist). *)
Theorem initialize_inference_only {B : Backend} (o : Opt.t) (w0 : World) :
  Opt.isTrain o = false ->
  exists w' : World,
    initialize o w0 = (Ok tt, w') /\
    trace w' =
      trace w0 ++
      [EvDefine NetG; EvLoad NetG "G" (Opt.which_epoch o);
       EvPrint "---------- Networks initialized ----------";
       EvPrintNetwork NetG;
       EvPrint "------------------------------------------"] /\
    self w' netG =
      Some (mkNetwork
              (fst (define_G (Opt.input_nc o) (Opt.output_nc o) (Opt.ngf o)
                      (Opt.which_model_netG o) (Opt.norm o)
                      (negb (Opt.no_dropout o)) (Opt.init_type o)
                      (Opt.gpu_ids o)))
              (disk w0 "G"%string (Opt.which_epoch o)) None) /\
    forall x : Attr,
      In x [netD; fake_AB_pool; criterionGAN; criterionL1; schedulers;
            optimizers; optimizer_G; optimizer_D] ->
      self w' x = self w0 x /\ (self w0 = new_self -> self w' x = None).
Proof.
  intros Ht.
  destruct (initialize_test_mode o w0 Ht)
    as (w' & Hrun & Htr & Hg & _ & _ & _ & Hfr).
  exists w'. split; [exact Hrun |]. split; [exact Htr |]. split; [exact Hg |].
  intros x Hx.
  assert (Hx' : self w' x = self w0 x).
  { apply Hfr. cbn in Hx |- *. intuition (subst; discriminate). }
  split; [exact Hx' |]. intros Hnew. rewrite Hx', Hnew. reflexivity.
Qed.

Lemma initialize_inference_only_witness :
  exists w' : @World toy_backend,
    initialize (toy_opt false false "l1") new_world = (Ok tt, w') /\
    self w' netD = None.
Proof.
  destruct (initialize_inference_only (toy_opt false false "l1")
              (@new_world toy_backend) eq_refl)
    as (w' & Hrun & _ & _ & Hfr).
  exists w'. split; [exact Hrun |].
  exact (proj2 (Hfr netD (or_introl eq_refl)) eq_refl).
Defined.

(** C10. [save(label)] saves the generator under ['G'] and then the
    discriminator under ['D'], without looking at [isTrain].  On a model
    with both networks the two checkpoints are written.  On a model
    initialized with [opt.isTrain] false, which has no [netD], every call
    raises [AttributeError] on [self.netD]: it does not return after saving
    the generator (whose checkpoint has been written by then). *)
Theorem save_needs_discriminator {B : Backend} (label : string) :
  (forall (w : World) (g d : Network) (gpus : list Z),
      self w netG = Some g ->
      self w netD = Some d ->
      self w gpu_ids = Some gpus ->
      exists w' : World,
        save label w = (Ok tt, w') /\
        trace w' = trace w ++ [EvSave NetG "G" label; EvSave NetD "D" label] /\
        disk w' "G"%string label = net_params g /\
        disk w' "D"%string label = net_params d) /\
  (forall (o : Opt.t) (w0 : World),
      Opt.isTrain o = false ->
      self w0 netD = None ->
      exists w1 w2 : World,
        initialize o w0 = (Ok tt, w1) /\
        save label w1 = (Raise (AttributeError netD), w2) /\
        trace w2 = trace w1 ++ [EvSave NetG "G" label]).
Proof.
  split.
  - intros w g d gpus Hg Hd Hgp.
    unfold save, save_network, write_disk, bind, getattr, log.
    rewrite Hg, Hgp. cbn. rewrite Hd. cbn. rewrite ?Hgp.
    eexists. split; [reflexivity |]. cbn.
    rewrite <- app_assoc. split; [reflexivity |].
    rewrite !String.eqb_refl. cbn. split; reflexivity.
  - intros o w0 Ht Hnone.
    destruct (initialize_test_mode o w0 Ht)
      as (w1 & Hrun & _ & Hg & _ & Hgp & _ & Hfr).
    assert (Hd : self w1 netD = None).
    { rewrite Hfr; [exact Hnone |]. cbn. intuition discriminate. }
    exists w1. eexists. split; [exact Hrun |].
    unfold save, save_network, write_disk, bind, getattr, log.
    rewrite Hg, Hgp. cbn. rewrite Hd. split; reflexivity.
Qed.

Lemma save_needs_discriminator_witness :
  exists w1 w2 : @World toy_backend,
    initialize (toy_opt false false "l1") new_world = (Ok tt, w1) /\
    save "latest" w1 = (Raise (AttributeError netD), w2).
Proof.
  destruct (proj2 (save_needs_discriminator "latest")
              (toy_opt false false "l1") (@new_world toy_backend)
              eq_refl eq_refl)
    as (w1 & w2 & Hrun & Hsave & _).
  exists w1, w2. split; [exact Hrun | exact Hsave].
Defined.

(** * Further properties *)

(** ** Inputs and their direction *)

(** X1. [set_input] reads the direction as "AtoB or anything else": with
    [opt.which_direction = 'AtoB'] it stores [input['A']], [input['B']] and
    [input['A_paths']]; with every other string it stores [input['B']] as
    [input_A], [input['A']] as [input_B] and [input['B_paths']].  Both
    tensors go to the first device of [gpu_ids] when there is one, the paths
    are stored as they are, and [get_image_paths] returns them.  Nothing else
    of the object changes and nothing is logged. *)
Theorem set_input_direction {B : Backend} (input : Batch) (w : World)
  (o : Opt.t) (gpus : list Z) :
  self w opt = Some o ->
  self w gpu_ids = Some gpus ->
  exists w' : World,
    set_input input w = (Ok tt, w') /\
    let to_device := match gpus with [] => fun x => x | g0 :: _ => cuda g0 end in
    (if String.eqb (Opt.which_direction o) "AtoB"
     then fed w' (to_device (batch_A input)) (to_device (batch_B input)) /\
          get_image_paths w' = (Ok (batch_A_paths input), w')
     else fed w' (to_device (batch_B input)) (to_device (batch_A input)) /\
          get_image_paths w' = (Ok (batch_B_paths input), w')) /\
    trace w' = trace w /\
    (forall x : Attr,
        ~ In x [input_A; input_B; image_paths] -> self w' x = self w x).
Proof.
  intros Ho Hg.
  unfold set_input, get_image_paths, fed, bind, getattr, setattr, ret.
  rewrite Ho. cbn. rewrite Hg.
  destruct gpus as [| g0 gs]; cbn;
    (eexists; split; [reflexivity |]; cbn;
     split;
     [ destruct (String.eqb (Opt.which_direction o) "AtoB");
       (split; [split; reflexivity | reflexivity])
     | split; [reflexivity |];
       intros x Hx; cbn in Hx;
       rewrite !self_set_other by (intros <-; apply Hx; tauto);
       reflexivity ]).
Qed.

Lemma set_input_direction_witness :
  exists w' : @World toy_backend,
    set_input toy_batch
      (run (initialize
              (Opt.mk true false 1 1 64 64 "unet" "basic" 3 "batch" false
                 "normal" [] false false "latest" 0 true "l1" 0.0002 0.5 100
                 "BtoA"))
         new_world)
    = (Ok tt, w') /\
    fed w' [3; 4] [1; 2] /\
    get_image_paths w' = (Ok ["b"%string], w').
Proof.
  destruct (set_input_direction toy_batch
              (run (initialize
                      (Opt.mk true false 1 1 64 64 "unet" "basic" 3 "batch"
                         false "normal" [] false false "latest" 0 true "l1"
                         0.0002 0.5 100 "BtoA"))
                 new_world)
              (Opt.mk true false 1 1 64 64 "unet" "basic" 3 "batch" false
                 "normal" [] false false "latest" 0 true "l1" 0.0002 0.5 100
                 "BtoA")
              [] eq_refl eq_refl)
    as (w' & Hrun & Hdir & _).
  exists w'. split; [exact Hrun | exact Hdir].
Defined.

(** ** Clipping *)

Lemma clamp_idempotent (lo hi : Q) (x : Value) :
  lo <= hi -> clamp lo hi (clamp lo hi x) = clamp lo hi x.
Proof.
  intros Hlh. destruct x as [q |]; [| reflexivity].
  assert (Hll : Qle_bool lo lo = true) by (apply Qle_bool_iff, Qle_refl).
  assert (Hhh : Qle_bool hi hi = true) by (apply Qle_bool_iff, Qle_refl).
  assert (Hlh' : Qle_bool lo hi = true) by (apply Qle_bool_iff; exact Hlh).
  unfold clamp, val_lt.
  destruct (Qle_bool lo q) eqn:E1; cbn.
  - destruct (Qle_bool q hi) eqn:E2; cbn.
    + rewrite E1, E2. reflexivity.
    + rewrite Hlh', Hhh. reflexivity.
  - rewrite Hll, Hlh'. reflexivity.
Qed.

Lemma clamp_in_range (lo hi : Q) (x : Value) :
  in_range lo hi x -> clamp lo hi x = x.
Proof.
  destruct x as [q |]; [| intros []].
  intros [H1 H2]. unfold clamp, val_lt.
  apply Qle_bool_iff in H1. apply Qle_bool_iff in H2.
  rewrite H1, H2. reflexivity.
Qed.

Lemma clamp__idempotent (lo hi : Q) (ps : Params) :
  lo <= hi ->
  map (clamp_ lo hi) (map (clamp_ lo hi) ps) = map (clamp_ lo hi) ps.
Proof.
  intros Hlh. rewrite map_map. apply map_ext. intros p.
  unfold clamp_. rewrite map_map. apply map_ext. intros x.
  apply clamp_idempotent. exact Hlh.
Qed.

Lemma clamp__in_range (lo hi : Q) (ps : Params) :
  Forall (Forall (in_range lo hi)) ps ->
  map (clamp_ lo hi) ps = ps.
Proof.
  intros H. induction H as [| p ps Hp _ IH]; [reflexivity |].
  cbn. rewrite IH. f_equal.
  unfold clamp_. induction Hp as [| x p Hx _ IHp]; [reflexivity |].
  cbn. rewrite IHp, (clamp_in_range _ _ _ Hx). reflexivity.
Qed.

(** X2. [clip_D] is idempotent: a second call right after the first leaves
    every attribute of the object, the discriminator's parameters among
    them, as the first call left it. *)
Theorem clip_D_idempotent {B : Backend} (w : World) (d : Network) :
  self w netD = Some d ->
  exists w1 w2 : World,
    clip_D w = (Ok tt, w1) /\
    clip_D w1 = (Ok tt, w2) /\
    forall x : Attr, self w2 x = self w1 x.
Proof.
  intros Hd.
  pose proof (clip_D_spec w d Hd) as H1. name_world H1 w1.
  pose proof (clip_D_spec w1 _ ltac:(look w1)) as H2.
  cbn [net_arch net_params net_grad] in H2. name_world H2 w2.
  exists w1, w2. split; [exact H1 |]. split; [exact H2 |].
  intros x. unfold w2, w1. cbn.
  rewrite clamp__idempotent by (unfold Qle; cbn; lia).
  destruct (Attr_eq_dec netD x) as [<- | Hne].
  - reflexivity.
  - rewrite !self_set_other by exact Hne. reflexivity.
Qed.

Lemma clip_D_idempotent_witness :
  exists w1 w2 : @World toy_backend,
    clip_D (toy_trained true) = (Ok tt, w1) /\
    clip_D w1 = (Ok tt, w2) /\
    self w2 netD = self w1 netD.
Proof.
  destruct (clip_D_idempotent (toy_trained true) toy_D eq_refl)
    as (w1 & w2 & H1 & H2 & Hsame).
  exists w1, w2. split; [exact H1 |]. split; [exact H2 | exact (Hsame netD)].
Defined.

(** X3. [clip_D] changes parameter values only: the discriminator keeps its
    gradients, the number of its parameter tensors and the size of each, and
    no other attribute changes; when every parameter is already in
    [[-0.01, 0.01]] the discriminator object is left exactly as it was. *)
Theorem clip_D_changes_values_only {B : Backend} (w : World) (d : Network) :
  self w netD = Some d ->
  exists (w' : World) (d' : Network),
    clip_D w = (Ok tt, w') /\
    self w' netD = Some d' /\
    net_arch d' = net_arch d /\
    net_grad d' = net_grad d /\
    map (@List.length Value) (net_params d')
    = map (@List.length Value) (net_params d) /\
    (Forall (Forall (in_range (-0.01) 0.01)) (net_params d) -> d' = d) /\
    (forall x : Attr, x <> netD -> self w' x = self w x).
Proof.
  intros Hd.
  pose proof (clip_D_spec w d Hd) as H1. name_world H1 w1.
  exists w1. eexists. split; [exact H1 |].
  split; [look w1 |]. cbn.
  split; [reflexivity |]. split; [reflexivity |].
  split.
  { rewrite map_map. apply map_ext. intros p. unfold clamp_.
    apply length_map. }
  split.
  { intros Hin. rewrite (clamp__in_range _ _ _ Hin). destruct d; reflexivity. }
  intros x Hx. apply self_set_other. congruence.
Qed.

Lemma clip_D_changes_values_only_witness :
  exists (w' : @World toy_backend) (d' : Network),
    clip_D (toy_trained true) = (Ok tt, w') /\
    self w' netD = Some d' /\
    net_grad d' = None.
Proof.
  destruct (clip_D_changes_values_only (toy_trained true) toy_D eq_refl)
    as (w' & d' & Hrun & Hd' & _ & Hg & _).
  exists w', d'. split; [exact Hrun |]. split; [exact Hd' | exact Hg].
Defined.

(** ** Repeated iterations *)

Lemma clipped_params {B : Backend} (w : World) (a : arch) (ps : Params)
  (g : option Params) :
  self w netD = Some (mkNetwork a (map (clamp_ (-0.01) 0.01) ps) g) ->
  D_params_clipped_unless_nan w.
Proof.
  intros H. eexists. split; [exact H |]. cbn.
  apply Forall_map, Forall_forall. intros p _.
  apply clamp__within. unfold Qle; cbn; lia.
Qed.

Lemma forward_calls_app {B : Backend} (n : NetId) (tr tr' : list Event) :
  forward_calls n (tr ++ tr')
  = (forward_calls n tr + forward_calls n tr')%nat.
Proof. unfold forward_calls. rewrite filter_app. apply length_app. Qed.

Lemma iterations_spec {B : Backend} (a b : tensor) (crit : GanCriterion)
  (crit1 : ReconCriterion) (o : Opt.t) (n : nat) :
  forall (w : World) (g d : Network) (pool : ImagePool) (og od : Optimizer),
    fed w a b ->
    trained w g d pool crit crit1 og od o ->
    exists (w' : World) (g' d' : Network) (pool' : ImagePool)
           (og' od' : Optimizer),
      iterations n w = (Ok tt, w') /\
      fed w' a b /\
      trained w' g' d' pool' crit crit1 og' od' o /\
      (forward_calls NetG (trace w') = (forward_calls NetG (trace w) + n)%nat /\
       forward_calls NetD (trace w')
       = (forward_calls NetD (trace w) + 3 * n)%nat) /\
      disk w' = disk w /\
      (forall x : Attr,
          ~ In x [real_A; fake_B; real_B; netD; optimizer_D; loss_D_fake;
                  loss_D_real; loss_D; fake_AB_pool; netG; optimizer_G;
                  loss_G_GAN; loss_G_L1; loss_G] ->
          self w' x = self w x) /\
      ((1 <= n)%nat -> Opt.wasserstein o = true ->
       D_params_clipped_unless_nan w').
Proof.
  induction n as [| n IH]; intros w g d pool og od Hfed Htr.
  - exists w, g, d, pool, og, od. cbn.
    split; [reflexivity |]. split; [exact Hfed |]. split; [exact Htr |].
    split; [split; lia |]. split; [reflexivity |]. split; [reflexivity |].
    intros Hn. lia.
  - destruct (optimize_parameters_spec w a b g d pool crit crit1 og od o
                Hfed Htr)
      as (pooled & w1 & w2 & w3 & _ & _ & _ & Hrun & Htrace & _ & _ & _
          & (gr3 & Hd3) & Hfed3 & (g3 & d3 & pool3 & og3 & od3 & Htr3)
          & _ & _ & _ & _ & Hdisk3 & Hfr3).
    cbn zeta in *.
    destruct (IH w3 g3 d3 pool3 og3 od3 Hfed3 Htr3)
      as (w' & g' & d' & pool' & og' & od' & Hit & Hfed' & Htr' & [HcG HcD]
          & Hdisk' & Hfr' & Hclip).
    exists w', g', d', pool', og', od'.
    split.
    { cbn [iterations]. rewrite (bind_Ok _ _ _ _ _ Hrun). exact Hit. }
    split; [exact Hfed' |]. split; [exact Htr' |].
    split.
    { rewrite HcG, HcD, Htrace. rewrite !forward_calls_app.
      destruct (Opt.wasserstein o); cbn; split; lia. }
    split; [rewrite Hdisk', Hdisk3; reflexivity |].
    split.
    { intros x Hx. rewrite Hfr' by exact Hx. apply Hfr3. exact Hx. }
    intros _ Hw.
    destruct n as [| n'].
    + cbn in Hit. injection Hit as <-.
      rewrite Hw in Hd3. eapply clipped_params. exact Hd3.
    + apply Hclip; [lia | exact Hw].
Qed.

(** X4. [optimize_parameters] can be called any number of times in a row on
    a trained model holding its input: every call returns, the model stays
    trained and keeps its input, each call runs the generator once and the
    discriminator three times, and the checkpoint files and every attribute
    outside the three variables, the two networks, their optimizers, the
    pool and the six losses are left as they were. *)
Theorem iterations_keep_model {B : Backend} (n : nat) (w : World)
  (a b : tensor) (g d : Network) (pool : ImagePool) (crit : GanCriterion)
  (crit1 : ReconCriterion) (og od : Optimizer) (o : Opt.t) :
  fed w a b ->
  trained w g d pool crit crit1 og od o ->
  exists (w' : World) (g' d' : Network) (pool' : ImagePool)
         (og' od' : Optimizer),
    iterations n w = (Ok tt, w') /\
    fed w' a b /\
    trained w' g' d' pool' crit crit1 og' od' o /\
    (forward_calls NetG (trace w') = (forward_calls NetG (trace w) + n)%nat /\
     forward_calls NetD (trace w')
     = (forward_calls NetD (trace w) + 3 * n)%nat) /\
    disk w' = disk w /\
    (forall x : Attr,
        ~ In x [real_A; fake_B; real_B; netD; optimizer_D; loss_D_fake;
                loss_D_real; loss_D; fake_AB_pool; netG; optimizer_G;
                loss_G_GAN; loss_G_L1; loss_G] ->
        self w' x = self w x).
Proof.
  intros Hfed Htr.
  destruct (iterations_spec a b crit crit1 o n w g d pool og od Hfed Htr)
    as (w' & g' & d' & pool' & og' & od' & Hit & Hfed' & Htr' & Hcalls & Hdisk
        & Hfr & _).
  exists w', g', d', pool', og', od'.
  repeat (split; [assumption |]). exact Hfr.
Qed.

Lemma iterations_keep_model_witness :
  exists w' : @World toy_backend,
    iterations 3 (toy_trained true) = (Ok tt, w') /\
    fed w' [1; 2] [3; 4] /\
    forward_calls NetG (trace w') = 3%nat /\
    forward_calls NetD (trace w') = 9%nat.
Proof.
  destruct (iterations_keep_model 3 (toy_trained true) [1; 2] [3; 4]
              toy_G toy_D (mkImagePool 0 []) WassersteinLoss L1LossObj
              (toy_Adam NetG) (toy_Adam NetD) (toy_opt true true "l1"))
    as (w' & g' & d' & pool' & og' & od' & Hit & Hfed' & _ & [HcG HcD] & _).
  - split; reflexivity.
  - repeat split; reflexivity.
  - exists w'. split; [exact Hit |]. split; [exact Hfed' |].
    split; [exact HcG | exact HcD].
Defined.

(** X5. In Wasserstein mode the clipping is an invariant of training: after
    any positive number of iterations every discriminator parameter value
    that is not NaN lies in [[-0.01, 0.01]], although the generator's update
    runs after the clamp in each of them. *)
Theorem iterations_keep_discriminator_clipped {B : Backend} (n : nat)
  (w : World) (a b : tensor) (g d : Network) (pool : ImagePool)
  (crit : GanCriterion) (crit1 : ReconCriterion) (og od : Optimizer)
  (o : Opt.t) :
  fed w a b ->
  trained w g d pool crit crit1 og od o ->
  Opt.wasserstein o = true ->
  (1 <= n)%nat ->
  exists w' : World,
    iterations n w = (Ok tt, w') /\ D_params_clipped_unless_nan w'.
Proof.
  intros Hfed Htr Hw Hn.
  destruct (iterations_spec a b crit crit1 o n w g d pool og od Hfed Htr)
    as (w' & g' & d' & pool' & og' & od' & Hit & _ & _ & _ & _ & _ & Hclip).
  exists w'. split; [exact Hit | exact (Hclip Hn Hw)].
Qed.

Lemma iterations_keep_discriminator_clipped_witness :
  exists w' : @World toy_backend,
    iterations 2 toy_nan_trained = (Ok tt, w') /\
    D_params_clipped_unless_nan w'.
Proof.
  apply (iterations_keep_discriminator_clipped 2 toy_nan_trained [1; 2]
           [3; 4] toy_G (@mkNetwork toy_backend tt [[NaN; Num 0.5]] None)
           (mkImagePool 0 []) WassersteinLoss L1LossObj
           (toy_Adam NetG) (toy_Adam NetD) toy_nan_opt).
  - split; reflexivity.
  - repeat split; reflexivity.
  - reflexivity.
  - exact (le_S 1 1 (le_n 1)).
Defined.

(** ** What the lifecycle methods leave alone *)

Lemma initialize_frame {B : Backend} (o : Opt.t) (w0 : World) (x : Attr) :
  In x [input_A; input_B; image_paths; real_A; fake_B; real_B;
        loss_D_fake; loss_D_real; loss_D; loss_G_GAN; loss_G_L1; loss_G] ->
  self (run (initialize o) w0) x = self w0 x.
Proof.
  intros Hx.
  unfold run, initialize, BaseModel_initialize, new_ImagePool, Adam,
    load_network, print_network, print,
    modify_net, get_net, set_net, read_disk, bind, getattr, setattr, log, ret.
  cbn.
  destruct (Opt.isTrain o), (Opt.continue_train o), (Opt.wasserstein o),
    (String.eqb (Opt.recon_loss o) "l1"), (String.eqb (Opt.recon_loss o) "l2");
    cbn;
    rewrite ?self_set_other by (intros <-; cbn in Hx; intuition discriminate);
    reflexivity.
Qed.

Lemma set_input_frame {B : Backend} (input : Batch) (w : World) (x : Attr) :
  ~ In x [input_A; input_B; image_paths] ->
  self (run (set_input input) w) x = self w x.
Proof.
  intros Hx.
  unfold run, set_input, bind, getattr, setattr, ret.
  destruct (self w opt) as [o |]; cbn; [| reflexivity].
  destruct (self w gpu_ids) as [[| g0 gs] |]; cbn;
    rewrite ?self_set_other by (intros <-; apply Hx; cbn; tauto);
    reflexivity.
Qed.

Lemma forward_frame {B : Backend} (w : World) (x : Attr) :
  ~ In x [real_A; fake_B; real_B] ->
  self (run forward w) x = self w x.
Proof.
  intros Hx.
  unfold run, forward, call, bind, getattr, setattr, log, ret.
  destruct (self w input_A) as [a |]; cbn; [| reflexivity].
  destruct (self w netG) as [g |]; cbn;
    [| apply self_set_other; intros <-; apply Hx; cbn; tauto].
  destruct (self w input_B) as [b |]; cbn;
    rewrite ?self_set_other by (intros <-; apply Hx; cbn; tauto);
    reflexivity.
Qed.

Lemma test_frame {B : Backend} (w : World) (x : Attr) :
  ~ In x [real_A; fake_B; real_B] ->
  self (run test w) x = self w x.
Proof.
  intros Hx.
  unfold run, test, call, bind, getattr, setattr, log, ret.
  destruct (self w input_A) as [a |]; cbn; [| reflexivity].
  destruct (self w netG) as [g |]; cbn;
    [| apply self_set_other; intros <-; apply Hx; cbn; tauto].
  destruct (self w input_B) as [b |]; cbn;
    rewrite ?self_set_other by (intros <-; apply Hx; cbn; tauto);
    reflexivity.
Qed.

(** ** Reporting *)

(** X6. After [optimize_parameters], [get_current_errors] returns the four
    values in the order G_GAN, G_L1, D_real, D_fake and leaves the model as
    it is.  D_real and D_fake are the scores of the discriminator as it was
    before its update of this iteration; G_GAN is the score of the updated
    (and, in Wasserstein mode, clipped) discriminator; the combined
    [loss_D] and [loss_G] are not reported. *)
Theorem errors_after_iteration {B : Backend} (w : World) (a b : tensor)
  (g d : Network) (pool : ImagePool) (crit : GanCriterion)
  (crit1 : ReconCriterion) (og od : Optimizer) (o : Opt.t) :
  fed w a b ->
  trained w g d pool crit crit1 og od o ->
  exists (pooled : tensor) (w' : World),
    optimize_parameters w = (Ok tt, w') /\
    let fb := G_output g a in
    let lD := D_loss crit d pooled (cat1 a b) in
    let grD := add_grad (option_map zeros (net_grad d))
                 (autograd NetD (grad_fn lD)) in
    let rD := adam_update (opt_lr od) (opt_betas od) (opt_state od)
                (net_params d) grD in
    let pD := if Opt.wasserstein o
              then map (clamp_ (-0.01) 0.01) (fst rD) else fst rD in
    get_current_errors w' =
      (Ok [("G_GAN"%string,
            data (call_criterionGAN crit
                    (new_Variable (net_forward (net_arch d) pD
                                     (cat1 a (data fb))) false)
                    true));
           ("G_L1"%string,
            data (call_criterionL1 crit1 fb (new_Variable b false))
            * Opt.lambda_A o);
           ("D_real"%string,
            data (call_criterionGAN crit
                    (new_Variable (net_forward (net_arch d) (net_params d)
                                     (cat1 a b)) false)
                    true));
           ("D_fake"%string,
            data (call_criterionGAN crit
                    (new_Variable (net_forward (net_arch d) (net_params d)
                                     pooled) false)
                    false))],
       w').
Proof.
  intros Hfed Htr.
  destruct (optimize_parameters_spec w a b g d pool crit crit1 og od o Hfed Htr)
    as (pooled & w1 & w2 & w3 & _ & _ & _ & Hrun & _ & _ & _ & _ & _ & _ & _
        & Hlf & Hlr & Hgan & Hl1 & _).
  cbn zeta in *.
  exists pooled, w3. split; [exact Hrun |].
  unfold get_current_errors, bind, getattr, ret.
  rewrite Hgan, Hl1, Hlr, Hlf.
  destruct crit; reflexivity.
Qed.

Lemma errors_after_iteration_witness :
  exists (w' : @World toy_backend) (errors : list (string * Q)),
    optimize_parameters (toy_trained true) = (Ok tt, w') /\
    get_current_errors w' = (Ok errors, w') /\
    map fst errors = ["G_GAN"; "G_L1"; "D_real"; "D_fake"]%string.
Proof.
  destruct (errors_after_iteration (toy_trained true) [1; 2] [3; 4]
              toy_G toy_D (mkImagePool 0 []) WassersteinLoss L1LossObj
              (toy_Adam NetG) (toy_Adam NetD) (toy_opt true true "l1"))
    as (pooled & w' & Hrun & Herr).
  - split; reflexivity.
  - repeat split; reflexivity.
  - exists w'. eexists. split; [exact Hrun |]. split; [exact Herr |].
    reflexivity.
Defined.

(** X7. The losses exist only once the backward passes have run: on an
    object that had no [loss_G_GAN], after [initialize], [set_input] and a
    [forward] or a [test] (in training or in inference mode)
    [get_current_errors] raises [AttributeError] and changes nothing. *)
Theorem errors_need_backward {B : Backend} (o : Opt.t) (input : Batch)
  (w0 : World) :
  self w0 loss_G_GAN = None ->
  let w2 := run (set_input input) (run (initialize o) w0) in
  get_current_errors (run forward w2) =
    (Raise (AttributeError loss_G_GAN), run forward w2) /\
  get_current_errors (run test w2) =
    (Raise (AttributeError loss_G_GAN), run test w2).
Proof.
  intros Hnone w2.
  assert (H2 : self w2 loss_G_GAN = None).
  { unfold w2. rewrite set_input_frame by (cbn; intuition discriminate).
    rewrite initialize_frame by (cbn; tauto). exact Hnone. }
  split; unfold get_current_errors; apply bind_Raise, getattr_None.
  - rewrite forward_frame by (cbn; intuition discriminate). exact H2.
  - rewrite test_frame by (cbn; intuition discriminate). exact H2.
Qed.

Lemma errors_need_backward_witness :
  get_current_errors (run test toy_inference) =
    (Raise (AttributeError loss_G_GAN), run test toy_inference).
Proof.
  exact (proj2 (errors_need_backward (toy_opt false false "l1") toy_batch
                  (@new_world toy_backend) eq_refl)).
Defined.

(** ** Calls out of order *)

(** X8. [set_input] must come first: on an object that had no [input_A],
    after [initialize] (in any mode, whether it succeeded or not) each of
    [forward], [test] and [optimize_parameters] raises [AttributeError] on
    [input_A] and leaves the model as it was. *)
Theorem input_needed_first {B : Backend} (o : Opt.t) (w0 : World) :
  self w0 input_A = None ->
  let w1 := run (initialize o) w0 in
  forward w1 = (Raise (AttributeError input_A), w1) /\
  test w1 = (Raise (AttributeError input_A), w1) /\
  optimize_parameters w1 = (Raise (AttributeError input_A), w1).
Proof.
  intros Hnone w1.
  assert (H1 : self w1 input_A = None).
  { unfold w1. rewrite initialize_frame by (cbn; tauto). exact Hnone. }
  assert (Hf : forward w1 = (Raise (AttributeError input_A), w1)).
  { unfold forward. apply bind_Raise, getattr_None. exact H1. }
  split; [exact Hf |]. split.
  - unfold test. apply bind_Raise, getattr_None. exact H1.
  - unfold optimize_parameters. apply bind_Raise. exact Hf.
Qed.

Lemma input_needed_first_witness :
  optimize_parameters (run (initialize (toy_opt true true "l1"))
                         (@new_world toy_backend))
  = (Raise (AttributeError input_A),
     run (initialize (toy_opt true true "l1")) (@new_world toy_backend)).
Proof.
  exact (proj2 (proj2 (input_needed_first (toy_opt true true "l1")
                         (@new_world toy_backend) eq_refl))).
Defined.

Lemma initialize_test_mode_opt {B : Backend} (o : Opt.t) (w0 : World) :
  Opt.isTrain o = false ->
  self (run (initialize o) w0) opt = Some o /\
  self (run (initialize o) w0) no_img
  = Some (Opt.no_img o && (Opt.output_nc o =? 1)%Z)%bool.
Proof.
  intros Ht.
  unfold run, initialize, BaseModel_initialize, load_network, print_network,
    print, modify_net, get_net, set_net, read_disk, bind, getattr, setattr,
    log, ret.
  rewrite Ht. cbn. split; reflexivity.
Qed.

Lemma inference_ready {B : Backend} (o : Opt.t) (input : Batch) (w0 : World) :
  Opt.isTrain o = false ->
  exists (w1 w2 : World) (a b : tensor),
    initialize o w0 = (Ok tt, w1) /\
    set_input input w1 = (Ok tt, w2) /\
    w2 = run (set_input input) (run (initialize o) w0) /\
    fed w2 a b /\
    (let AtoB := String.eqb (Opt.which_direction o) "AtoB" in
     let to_device :=
       match Opt.gpu_ids o with [] => fun x => x | g0 :: _ => cuda g0 end in
     a = to_device (if AtoB then batch_A input else batch_B input) /\
     b = to_device (if AtoB then batch_B input else batch_A input)) /\
    self w2 netG =
      Some (mkNetwork
              (fst (define_G (Opt.input_nc o) (Opt.output_nc o) (Opt.ngf o)
                      (Opt.which_model_netG o) (Opt.norm o)
                      (negb (Opt.no_dropout o)) (Opt.init_type o)
                      (Opt.gpu_ids o)))
              (disk w0 "G"%string (Opt.which_epoch o)) None) /\
    self w2 no_img = Some (Opt.no_img o && (Opt.output_nc o =? 1)%Z)%bool /\
    trace w2 = trace w1.
Proof.
  intros Ht.
  destruct (initialize_test_mode o w0 Ht)
    as (w1 & Hinit & _ & Hg & _ & Hgp & _ & _).
  destruct (initialize_test_mode_opt o w0 Ht) as [Ho Hni].
  unfold run in Ho, Hni. rewrite Hinit in Ho, Hni. cbn [snd] in Ho, Hni.
  destruct (set_input_spec input w1 o (Opt.gpu_ids o) Ho Hgp)
    as (w2 & Hset & Hfed & Htr & _ & Hfr).
  cbn zeta in Hfed.
  exists w1, w2. do 2 eexists.
  split; [exact Hinit |]. split; [exact Hset |].
  split; [unfold run; rewrite Hinit; cbn [snd]; rewrite Hset; reflexivity |].
  split; [exact Hfed |].
  split; [destruct (Opt.gpu_ids o); split; reflexivity |].
  split; [rewrite Hfr by (cbn; intuition discriminate); exact Hg |].
  split; [rewrite Hfr by (cbn; intuition discriminate); exact Hni |].
  exact Htr.
Qed.

(** X9. A model initialized for inference cannot be trained: after
    [initialize] with [opt.isTrain] false and [set_input],
    [optimize_parameters] runs the forward pass (the generator is called and
    [fake_B] is stored) and then raises [AttributeError] on [optimizer_D];
    no parameter has been changed. *)
Theorem inference_model_cannot_train {B : Backend} (o : Opt.t)
  (input : Batch) (w0 : World) :
  Opt.isTrain o = false ->
  self w0 optimizer_D = None ->
  exists (w1 w2 w3 : World) (a : tensor) (g : Network),
    initialize o w0 = (Ok tt, w1) /\
    set_input input w1 = (Ok tt, w2) /\
    self w2 input_A = Some a /\
    self w2 netG = Some g /\
    optimize_parameters w2 = (Raise (AttributeError optimizer_D), w3) /\
    trace w3 = trace w2 ++ [EvForward NetG a] /\
    self w3 fake_B = Some (G_output g a) /\
    self w3 netG = Some g.
Proof.
  intros Ht Hnone.
  destruct (inference_ready o input w0 Ht)
    as (w1 & w2 & a & b & Hinit & Hset & Hw2 & [Ha Hb] & _ & Hg & _ & _).
  assert (Hod : self w2 optimizer_D = None).
  { rewrite Hw2. rewrite set_input_frame by (cbn; intuition discriminate).
    destruct (initialize_test_mode o w0 Ht)
      as (w1' & Hinit' & _ & _ & _ & _ & _ & Hfr).
    unfold run. rewrite Hinit'. cbn [snd].
    rewrite Hfr by (cbn; intuition discriminate). exact Hnone. }
  pose proof (forward_spec w2 a b _ Ha Hb Hg) as Hf. name_world Hf w3.
  exists w1, w2, w3, a. eexists.
  split; [exact Hinit |]. split; [exact Hset |]. split; [exact Ha |].
  split; [exact Hg |].
  split.
  { unfold optimize_parameters. rewrite (bind_Ok _ _ _ _ _ Hf).
    apply bind_Raise, getattr_None. unfold w3. cbn. exact Hod. }
  split; [reflexivity |]. split; [reflexivity |].
  unfold w3. cbn. exact Hg.
Qed.

Lemma inference_model_cannot_train_witness :
  exists w3 : @World toy_backend,
    optimize_parameters toy_inference
    = (Raise (AttributeError optimizer_D), w3).
Proof.
  destruct (inference_model_cannot_train (toy_opt false false "l1") toy_batch
              (@new_world toy_backend) eq_refl eq_refl)
    as (w1 & w2 & w3 & a & g & Hinit & Hset & _ & _ & Hrun & _).
  exists w3.
  assert (Hw2 : toy_inference = w2).
  { unfold toy_inference, run. rewrite Hinit. cbn [snd]. rewrite Hset.
    reflexivity. }
  rewrite Hw2. exact Hrun.
Defined.

(** ** Checkpoints *)

Lemma save_spec {B : Backend} (label : string) (w : World) (g d : Network)
  (gpus : list Z) :
  self w netG = Some g ->
  self w netD = Some d ->
  self w gpu_ids = Some gpus ->
  exists w' : World,
    save label w = (Ok tt, w') /\
    disk w' "G"%string label = net_params g /\
    disk w' "D"%string label = net_params d /\
    self w' = self w.
Proof.
  intros Hg Hd Hgp.
  unfold save, save_network, write_disk, bind, getattr, log.
  rewrite Hg, Hgp. cbn. rewrite Hd. cbn. rewrite ?Hgp.
  eexists. split; [reflexivity |]. cbn.
  rewrite !String.eqb_refl. cbn. repeat split; reflexivity.
Qed.

(** X10. Resuming restores the parameters and nothing else: after
    [save(label)] on a model with both networks, a training-mode
    [initialize] with [continue_train] and [which_epoch = label] gives
    networks with exactly the saved parameters; their gradients are absent
    and both Adam optimizers start from their initial state. *)
Theorem save_then_resume {B : Backend} (label : string) (w : World)
  (g d : Network) (gpus : list Z) (o : Opt.t) :
  self w netG = Some g ->
  self w netD = Some d ->
  self w gpu_ids = Some gpus ->
  Opt.isTrain o = true ->
  Opt.continue_train o = true ->
  Opt.which_epoch o = label ->
  (String.eqb (Opt.recon_loss o) "l1" || String.eqb (Opt.recon_loss o) "l2")%bool
    = true ->
  exists (w1 w2 : World) (g' d' : Network),
    save label w = (Ok tt, w1) /\
    initialize o w1 = (Ok tt, w2) /\
    self w2 netG = Some g' /\
    self w2 netD = Some d' /\
    net_params g' = net_params g /\
    net_params d' = net_params d /\
    net_grad g' = None /\
    net_grad d' = None /\
    self w2 optimizer_G =
      Some (mkOptimizer NetG (Opt.lr o) (Opt.beta1 o, 0.999) adam_init) /\
    self w2 optimizer_D =
      Some (mkOptimizer NetD (Opt.lr o) (Opt.beta1 o, 0.999) adam_init).
Proof.
  intros Hg Hd Hgp Ht Hc Hl Hr.
  destruct (save_spec label w g d gpus Hg Hd Hgp)
    as (w1 & Hsave & HdG & HdD & _).
  destruct (initialize_train_mode o w1 Ht Hr) as (w2 & Hinit & Htr & _).
  cbn zeta in Htr. rewrite Hc, Hl in Htr.
  destruct Htr as (Hg2 & Hd2 & _ & _ & _ & Hog & Hod & _).
  exists w1, w2. do 2 eexists.
  split; [exact Hsave |]. split; [exact Hinit |].
  split; [exact Hg2 |]. split; [exact Hd2 |]. cbn.
  split; [exact HdG |]. split; [exact HdD |].
  split; [reflexivity |]. split; [reflexivity |].
  split; [exact Hog | exact Hod].
Qed.

Lemma save_then_resume_witness :
  exists (w1 w2 : @World toy_backend) (d' : Network),
    save "7" (run clip_D (toy_trained true)) = (Ok tt, w1) /\
    initialize
      (Opt.mk true false 1 1 64 64 "unet" "basic" 3 "batch" false "normal" []
         false true "7" 0 true "l2" 0.0002 0.5 100 "AtoB") w1
    = (Ok tt, w2) /\
    self w2 netD = Some d' /\
    net_params d' = [nums [0.01; -0.01]; nums [0.005]].
Proof.
  destruct (save_then_resume "7" (run clip_D (toy_trained true))
              toy_G
              (@mkNetwork toy_backend tt [nums [0.01; -0.01]; nums [0.005]]
                 None) []
              (Opt.mk true false 1 1 64 64 "unet" "basic" 3 "batch" false
                 "normal" [] false true "7" 0 true "l2" 0.0002 0.5 100 "AtoB")
              eq_refl eq_refl eq_refl eq_refl eq_refl eq_refl eq_refl)
    as (w1 & w2 & g' & d' & Hsave & Hinit & _ & Hd' & _ & Hp & _).
  exists w1, w2, d'.
  split; [exact Hsave |]. split; [exact Hinit |]. split; [exact Hd' | exact Hp].
Defined.

(** X11. What training saved is what inference runs: after [save(label)],
    an inference-mode [initialize] with [which_epoch = label], [set_input]
    and [test] return, and [fake_B] is the newly defined generator applied
    with the saved parameters to the stored input; it is volatile and has
    no history, and the generator has no gradient. *)
Theorem save_then_infer {B : Backend} (label : string) (w : World)
  (g d : Network) (gpus : list Z) (o : Opt.t) (input : Batch) :
  self w netG = Some g ->
  self w netD = Some d ->
  self w gpu_ids = Some gpus ->
  Opt.isTrain o = false ->
  Opt.which_epoch o = label ->
  exists (w1 w2 w3 w4 : World) (a : tensor) (g' : Network),
    save label w = (Ok tt, w1) /\
    initialize o w1 = (Ok tt, w2) /\
    set_input input w2 = (Ok tt, w3) /\
    test w3 = (Ok tt, w4) /\
    self w3 input_A = Some a /\
    self w4 netG = Some g' /\
    net_params g' = net_params g /\
    net_grad g' = None /\
    self w4 fake_B =
      Some (mkVar (net_forward (net_arch g') (net_params g) a) GLeaf true).
Proof.
  intros Hg Hd Hgp Ht Hl.
  destruct (save_spec label w g d gpus Hg Hd Hgp)
    as (w1 & Hsave & HdG & _ & _).
  destruct (inference_ready o input w1 Ht)
    as (w2 & w3 & a & b & Hinit & Hset & _ & [Ha Hb] & _ & Hg3 & _ & _).
  rewrite Hl, HdG in Hg3.
  pose proof (test_spec w3 a b _ Ha Hb Hg3) as Htest.
  cbn [net_arch net_params] in Htest. name_world Htest w4.
  exists w1, w2, w3, w4, a. eexists.
  split; [exact Hsave |]. split; [exact Hinit |]. split; [exact Hset |].
  split; [exact Htest |]. split; [exact Ha |].
  split; [unfold w4; cbn; exact Hg3 |].
  split; [reflexivity |]. split; reflexivity.
Qed.

Lemma save_then_infer_witness :
  exists (w4 : @World toy_backend) (fb : Var tensor),
    test (run (set_input toy_batch)
            (run (initialize (toy_opt false false "l1"))
               (run (save "latest") (toy_trained true))))
    = (Ok tt, w4) /\
    self w4 fake_B = Some fb /\
    volatile fb = true.
Proof.
  destruct (save_then_infer "latest" (toy_trained true) toy_G toy_D []
              (toy_opt false false "l1") toy_batch
              eq_refl eq_refl eq_refl eq_refl eq_refl)
    as (w1 & w2 & w3 & w4 & a & g' & Hsave & Hinit & Hset & Htest & _ & _ & _
        & _ & Hfb).
  exists w4. eexists.
  split.
  { unfold run. rewrite Hsave. cbn [snd]. rewrite Hinit. cbn [snd].
    rewrite Hset. cbn [snd]. exact Htest. }
  split; [exact Hfb | reflexivity].
Defined.

(** ** Visuals *)

(** X12. After an inference-mode [initialize], [set_input] and [test],
    [get_current_visuals] returns real_A, fake_B and real_B in this order.
    [fake_B] and [real_B] are converted with [gray_to_rgb=False] exactly
    when [opt.no_img] is set and [opt.output_nc] is 1 (with any other
    [output_nc] the option has no effect); [real_A] is always converted with
    the default. *)
Theorem visuals_after_test {B : Backend} {V : Type}
  (tensor2vid : tensor -> option bool -> V) (o : Opt.t) (input : Batch)
  (w0 : World) :
  Opt.isTrain o = false ->
  exists (w3 : World) (a b fbd : tensor),
    test (run (set_input input) (run (initialize o) w0)) = (Ok tt, w3) /\
    fed w3 a b /\
    (exists fb : Var tensor, self w3 fake_B = Some fb /\ data fb = fbd) /\
    let flag := if (Opt.no_img o && (Opt.output_nc o =? 1)%Z)%bool
                then Some false else None in
    get_current_visuals tensor2vid w3 =
      (Ok [("real_A"%string, tensor2vid a None);
           ("fake_B"%string, tensor2vid fbd flag);
           ("real_B"%string, tensor2vid b flag)],
       w3).
Proof.
  intros Ht.
  destruct (inference_ready o input w0 Ht)
    as (w1 & w2 & a & b & _ & _ & Hw2 & [Ha Hb] & _ & Hg & Hni & _).
  pose proof (test_spec w2 a b _ Ha Hb Hg) as Htest.
  cbn [net_arch net_params] in Htest. name_world Htest w3.
  rewrite <- Hw2.
  exists w3, a, b. eexists.
  split; [exact Htest |].
  split; [split; unfold w3; cbn; assumption |].
  split; [eexists; split; [unfold w3; cbn; reflexivity | reflexivity] |].
  unfold get_current_visuals, bind, getattr, ret, w3. cbn.
  rewrite Hni.
  destruct (Opt.no_img o && (Opt.output_nc o =? 1)%Z)%bool; reflexivity.
Qed.

Lemma visuals_after_test_witness :
  exists (w3 : @World toy_backend) (vs : list (string * (list Q * option bool))),
    get_current_visuals (fun x (gray : option bool) => (x, gray)) w3
    = (Ok vs, w3) /\
    map fst vs = ["real_A"; "fake_B"; "real_B"]%string.
Proof.
  destruct (visuals_after_test (B := toy_backend)
              (fun x (gray : option bool) => (x, gray))
              (toy_opt false false "l1") toy_batch new_world eq_refl)
    as (w3 & a & b & fbd & _ & _ & _ & Hv).
  exists w3. eexists. split; [exact Hv | reflexivity].
Defined.

(** ** The generator's update and the discriminator *)

(** X13. The generator's update never changes a discriminator parameter,
    but it is not without effect on the discriminator: [backward_G] adds the
    gradient of [loss_G] to the discriminator's gradients, where it stays
    through the generator's optimizer step (until the next [zero_grad] of
    the discriminator's optimizer). *)
Theorem backward_G_touches_D_gradients_only {B : Backend} (w : World)
  (a b fbd : tensor) (gfb : Graph tensor arch) (g d : Network)
  (crit : GanCriterion) (crit1 : ReconCriterion) (og : Optimizer) (o : Opt.t) :
  self w real_A = Some (new_Variable a false) ->
  self w fake_B = Some (mkVar fbd gfb false) ->
  reaches NetG gfb = true ->
  self w real_B = Some (new_Variable b false) ->
  self w netG = Some g ->
  self w netD = Some d ->
  self w criterionGAN = Some crit ->
  self w criterionL1 = Some crit1 ->
  self w opt = Some o ->
  target og = NetG ->
  exists (w1 w2 : World) (og' : Optimizer) (lG : Var Q),
    backward_G w = (Ok tt, w1) /\
    step og w1 = (Ok og', w2) /\
    self w1 loss_G = Some lG /\
    reaches NetD (grad_fn lG) = true /\
    self w2 netD =
      Some (mkNetwork (net_arch d) (net_params d)
              (Some (add_grad (net_grad d) (autograd NetD (grad_fn lG))))).
Proof.
  intros Hra Hfb Hreach Hrb Hg Hd Hcrit Hcrit1 Ho Hogt.
  pose proof (backward_G_spec w a b fbd gfb g d crit crit1 o
                Hra Hfb Hreach Hrb Hg Hd Hcrit Hcrit1 Ho) as Hb.
  cbn zeta in Hb. name_world Hb w1.
  pose proof (step_G_spec w1 og _ _ Hogt ltac:(look w1) eq_refl) as Hs.
  cbn zeta in Hs. name_world Hs w2.
  exists w1, w2. do 2 eexists.
  split; [exact Hb |]. split; [exact Hs |].
  split; [look w1 |].
  split.
  { destruct crit, crit1; cbn; unfold record, requires_grad;
      repeat (progress (cbn; rewrite ?Hreach, ?orb_true_r)); reflexivity. }
  unfold w2, w1. cbn. reflexivity.
Qed.

Lemma backward_G_touches_D_gradients_only_witness :
  exists (w1 w2 : @World toy_backend) (d' : Network),
    backward_G (run forward (toy_trained false)) = (Ok tt, w1) /\
    self w2 netD = Some d' /\
    net_params d' = net_params toy_D /\
    net_grad d' = Some [nums [1; 1]; nums [1]].
Proof.
  destruct (backward_G_touches_D_gradients_only
              (run forward (toy_trained false))
              [1; 2] [3; 4] [4; 5] (GNet NetG tt [nums [2; 1]] [1; 2] GLeaf)
              toy_G toy_D (GANLossObj true FloatTensor) L1LossObj
              (toy_Adam NetG) (toy_opt true false "l1")
              eq_refl eq_refl eq_refl eq_refl eq_refl eq_refl eq_refl eq_refl
              eq_refl eq_refl)
    as (w1 & w2 & og' & lG & Hb & _ & _ & _ & Hd).
  exists w1, w2. eexists.
  split; [exact Hb |]. split; [exact Hd |]. split; reflexivity.
Defined.

(** ** Construction order *)

(** X14. A training-mode [initialize] with a valid reconstruction loss
    builds things in this order: both networks are defined, the generator
    first; with [continue_train] (and only then) both checkpoints are
    loaded, 'G' then 'D', at [which_epoch]; then the pool, the generator's
    and the discriminator's Adam optimizer, and one scheduler per optimizer
    in the same order, so that [schedulers] lines up with [optimizers];
    last the two networks are printed.  Without [continue_train] the
    networks keep the parameters [define_G] and [define_D] gave them. *)
Theorem initialize_training_order {B : Backend} (o : Opt.t) (w0 : World) :
  Opt.isTrain o = true ->
  (String.eqb (Opt.recon_loss o) "l1" || String.eqb (Opt.recon_loss o) "l2")%bool
    = true ->
  exists (w' : World) (g d : Network),
    initialize o w0 = (Ok tt, w') /\
    trace w' =
      trace w0 ++ [EvDefine NetG; EvDefine NetD] ++
      (if Opt.continue_train o
       then [EvLoad NetG "G" (Opt.which_epoch o);
             EvLoad NetD "D" (Opt.which_epoch o)]
       else []) ++
      [EvImagePool (Opt.pool_size o); EvAdam NetG; EvAdam NetD;
       EvScheduler NetG; EvScheduler NetD;
       EvPrint "---------- Networks initialized ----------";
       EvPrintNetwork NetG; EvPrintNetwork NetD;
       EvPrint "------------------------------------------"] /\
    self w' optimizers = Some [NetG; NetD] /\
    self w' schedulers = Some [get_scheduler NetG o; get_scheduler NetD o] /\
    self w' netG = Some g /\
    self w' netD = Some d /\
    (Opt.continue_train o = false ->
     net_params g =
       snd (define_G (Opt.input_nc o) (Opt.output_nc o) (Opt.ngf o)
              (Opt.which_model_netG o) (Opt.norm o) (negb (Opt.no_dropout o))
              (Opt.init_type o) (Opt.gpu_ids o)) /\
     net_params d =
       snd (define_D (Opt.input_nc o + Opt.output_nc o)%Z (Opt.ndf o)
              (Opt.which_model_netD o) (Opt.n_layers_D o) (Opt.norm o)
              (Opt.no_lsgan o) (Opt.init_type o) (Opt.gpu_ids o))).
Proof.
  intros Ht Hr.
  unfold initialize, BaseModel_initialize, new_ImagePool, Adam,
    load_network, print_network, print,
    modify_net, get_net, set_net, read_disk, bind, getattr, setattr, log, ret.
  rewrite Ht. cbn.
  destruct (Opt.continue_train o), (Opt.wasserstein o),
    (String.eqb (Opt.recon_loss o) "l1"); cbn in Hr |- *;
    rewrite ?Hr; cbn;
    (do 3 eexists; split; [reflexivity |]; cbn; rewrite <- ?app_assoc; cbn;
     split; [reflexivity |]; split; [reflexivity |]; split; [reflexivity |];
     split; [reflexivity |]; split; [reflexivity |];
     intros Hc; try discriminate Hc; split; reflexivity).
Qed.

Lemma initialize_training_order_witness :
  exists w' : @World toy_backend,
    initialize (toy_opt true false "l2") new_world = (Ok tt, w') /\
    self w' optimizers = Some [NetG; NetD] /\
    self w' schedulers = Some [NetG; NetD].
Proof.
  destruct (initialize_training_order (toy_opt true false "l2")
              (@new_world toy_backend) eq_refl eq_refl)
    as (w' & g & d & Hrun & _ & Hopt & Hsch & _).
  exists w'. split; [exact Hrun |]. split; [exact Hopt | exact Hsch].
Defined.

(** ** Evaluation between iterations *)

(** X15. An evaluation pass can be put between two training iterations:
    [test] leaves a trained model trained, and the [optimize_parameters]
    that follows returns and stores a [fake_B] that is recorded again (not
    volatile, with the generator's node as its history). *)
Theorem test_then_train {B : Backend} (w : World) (a b : tensor)
  (g d : Network) (pool : ImagePool) (crit : GanCriterion)
  (crit1 : ReconCriterion) (og od : Optimizer) (o : Opt.t) :
  fed w a b ->
  trained w g d pool crit crit1 og od o ->
  exists w1 w2 : World,
    test w = (Ok tt, w1) /\
    self w1 fake_B =
      Some (mkVar (net_forward (net_arch g) (net_params g) a) GLeaf true) /\
    trained w1 g d pool crit crit1 og od o /\
    optimize_parameters w1 = (Ok tt, w2) /\
    self w2 fake_B = Some (G_output g a).
Proof.
  intros [Ha Hb] Htr.
  pose proof Htr as (Hg & _).
  pose proof (test_spec w a b g Ha Hb Hg) as Htest. name_world Htest w1.
  assert (Htr1 : trained w1 g d pool crit crit1 og od o).
  { apply (trained_frame w); [| exact Htr].
    intros x Hx. unfold w1. cbn.
    rewrite !self_set_other by (intros <-; cbn in Hx; intuition discriminate).
    reflexivity. }
  assert (Hfed1 : fed w1 a b) by (split; unfold w1; cbn; assumption).
  destruct (optimize_parameters_spec w1 a b g d pool crit crit1 og od o
              Hfed1 Htr1)
    as (pooled & v1 & v2 & w2 & _ & _ & _ & Hrun & _ & (_ & _ & Hfb) & _).
  exists w1, w2.
  split; [exact Htest |]. split; [reflexivity |]. split; [exact Htr1 |].
  split; [exact Hrun | exact Hfb].
Qed.

Lemma test_then_train_witness :
  exists w1 w2 : @World toy_backend,
    test (toy_trained false) = (Ok tt, w1) /\
    optimize_parameters w1 = (Ok tt, w2) /\
    self w2 fake_B = Some (G_output toy_G [1; 2]).
Proof.
  destruct (test_then_train (toy_trained false) [1; 2] [3; 4] toy_G toy_D
              (mkImagePool 0 []) (GANLossObj true FloatTensor) L1LossObj
              (toy_Adam NetG) (toy_Adam NetD) (toy_opt true false "l1"))
    as (w1 & w2 & Htest & _ & _ & Hrun & Hfb).
  - split; reflexivity.
  - repeat split; reflexivity.
  - exists w1, w2. split; [exact Htest |]. split; [exact Hrun | exact Hfb].
Defined.
